(** * n8n Workflow Model Tracker: the fetcher and the classifier of [utils.py]

    The functions [fetch_workflows_generator] and [process_workflows] as
    Rocq functions, together with the Python operations they rely on,
    followed by the properties of the two functions. *)

From Stdlib Require Import Bool Arith ZArith List Ascii String Lia.
From Stdlib Require Import DecimalString.
Import ListNotations.

Local Open Scope list_scope.
Local Open Scope string_scope.

(* ================================================================= *)
(** ** Python values *)

(** The values that flow through [utils.py] are decoded JSON documents,
    strings read from the process environment and the literals of the
    program itself.  A [dict] keeps its insertion order (which
    [credentials.values()] observes), so it is an association list; the
    lists that stand for a dict have pairwise distinct keys.  Characters
    are the 8-bit characters of [ascii]; numbers are integers. *)
#[warnings="-register-all"]
Inductive value : Type :=
| VNone
| VBool (b : bool)
| VInt (z : Z)
| VStr (s : string)
| VList (l : list value)
| VDict (kvs : list (string * value)).

(** Exception classes that the two functions can meet.  [JSONDecodeError]
    and [InvalidURL] are those of [requests.exceptions]; both derive from
    [RequestException] and from [ValueError]. *)
Inductive exn_class : Type :=
| TypeError
| AttributeError
| ValueError
| RequestException
| ConnectionError
| HTTPError
| InvalidURL
| JSONDecodeError.

(** [isinstance(e, ValueError)]. *)
Definition is_ValueError (c : exn_class) : bool :=
  match c with
  | ValueError | InvalidURL | JSONDecodeError => true
  | _ => false
  end.

(** [isinstance(e, requests.exceptions.RequestException)]. *)
Definition is_RequestException (c : exn_class) : bool :=
  match c with
  | RequestException | ConnectionError | HTTPError | InvalidURL
  | JSONDecodeError => true
  | _ => false
  end.

(** [isinstance(e, Exception)]: every class above derives from it. *)
Definition is_Exception (c : exn_class) : bool := true.

(** A computation that either returns or raises. *)
Inductive result (A : Type) : Type :=
| Ok (a : A)
| Raise (e : exn_class).

Arguments Ok {A} a.
Arguments Raise {A} e.

Definition bind {A B : Type} (m : result A) (k : A -> result B) : result B :=
  match m with
  | Ok a => k a
  | Raise e => Raise e
  end.

Notation "x <- m ;; k" := (bind m (fun x => k))
  (at level 61, m at next level, right associativity).
Notation "' p <- m ;; k" := (bind m (fun p => k))
  (at level 61, p pattern, m at next level, right associativity).

(** [for x in xs: acc = body x acc], stopping at the first exception. *)
Fixpoint for_each {A S : Type} (body : A -> S -> result S) (xs : list A) (acc : S)
  : result S :=
  match xs with
  | [] => Ok acc
  | x :: xs' => acc' <- body x acc ;; for_each body xs' acc'
  end.

(* ----------------------------------------------------------------- *)
(** *** Strings *)

(** [needle in hay] on two [str] objects. *)
Fixpoint contains (needle hay : string) : bool :=
  prefix needle hay ||
  match hay with
  | EmptyString => false
  | String _ hay' => contains needle hay'
  end.

(** [sep.join(parts)] on a list of [str] objects. *)
Definition join (sep : string) (parts : list string) : string :=
  String.concat sep parts.

(** [s[:n]]. *)
Definition py_slice_to (n : nat) (s : string) : string := substring 0 n s.

(** [str(z)] for an [int]. *)
Definition str_of_int (z : Z) : string := NilZero.string_of_int (Z.to_int z).

(* ----------------------------------------------------------------- *)
(** *** Truth value, membership, lookup *)

(** [bool(v)], as [if v:] and [not v] take it. *)
Definition py_truthy (v : value) : bool :=
  match v with
  | VNone => false
  | VBool b => b
  | VInt z => negb (Z.eqb z 0)
  | VStr s => negb (String.eqb s EmptyString)
  | VList l => match l with [] => false | _ :: _ => true end
  | VDict kvs => match kvs with [] => false | _ :: _ => true end
  end.

(** [isinstance(v, dict)]. *)
Definition is_dict (v : value) : bool :=
  match v with
  | VDict _ => true
  | _ => false
  end.

(** Lookup of a key in the association list of a dict. *)
Fixpoint lookup (k : string) (kvs : list (string * value)) : option value :=
  match kvs with
  | [] => None
  | (k', v) :: kvs' => if String.eqb k k' then Some v else lookup k kvs'
  end.

(** [v == s] for a [str] literal [s]: only an equal [str] is equal. *)
Definition eq_str (v : value) (s : string) : bool :=
  match v with
  | VStr s' => String.eqb s' s
  | _ => false
  end.

(** [s in v] for a [str] literal [s]: substring test on a [str], element
    test on a [list], key test on a [dict], and [TypeError] on [None],
    [bool] and [int], which are not containers. *)
Definition py_in (s : string) (v : value) : result bool :=
  match v with
  | VStr hay => Ok (contains s hay)
  | VList l => Ok (existsb (fun x => eq_str x s) l)
  | VDict kvs => Ok (match lookup s kvs with Some _ => true | None => false end)
  | VNone | VBool _ | VInt _ => Raise TypeError
  end.

(** [d.get(k, default)]; only a [dict] has the method. *)
Definition py_get (d : value) (k : string) (default : value) : result value :=
  match d with
  | VDict kvs => Ok (match lookup k kvs with Some v => v | None => default end)
  | _ => Raise AttributeError
  end.

(** [d.values()]. *)
Definition py_values (d : value) : result (list value) :=
  match d with
  | VDict kvs => Ok (map snd kvs)
  | _ => Raise AttributeError
  end.

(** The characters of a string, each as a one-character [str]. *)
Fixpoint chars (s : string) : list value :=
  match s with
  | EmptyString => []
  | String c s' => VStr (String c EmptyString) :: chars s'
  end.

(** The items that [for x in v] visits: the elements of a [list], the keys
    of a [dict], the characters of a [str]; the other values are not
    iterable. *)
Definition py_iter (v : value) : result (list value) :=
  match v with
  | VList l => Ok l
  | VDict kvs => Ok (map (fun kv => VStr (fst kv)) kvs)
  | VStr s => Ok (chars s)
  | VNone | VBool _ | VInt _ => Raise TypeError
  end.

(** [sep.join(items)] on a list of arbitrary values: [TypeError] unless
    every item is a [str]. *)
Fixpoint strings_of (items : list value) : result (list string) :=
  match items with
  | [] => Ok []
  | VStr s :: items' => ss <- strings_of items' ;; Ok (s :: ss)
  | _ :: _ => Raise TypeError
  end.

Definition py_join (sep : string) (items : list value) : result string :=
  ss <- strings_of items ;; Ok (join sep ss).

(* ----------------------------------------------------------------- *)
(** *** [str] and [repr] *)

Definition single_quote : ascii := ascii_of_nat 39.
Definition double_quote : ascii := ascii_of_nat 34.
Definition backslash : ascii := ascii_of_nat 92.

Definition hex_digit (n : nat) : ascii :=
  ascii_of_nat (if Nat.ltb n 10 then 48 + n else 87 + n)%nat.

(** The characters that [repr] leaves as they are. *)
Definition printable (c : ascii) : bool :=
  let n := nat_of_ascii c in
  (Nat.leb 32 n && Nat.ltb n 127) || (Nat.leb 161 n && negb (Nat.eqb n 173)).

Definition escape_char (quote c : ascii) : string :=
  let n := nat_of_ascii c in
  if Ascii.eqb c quote || Ascii.eqb c backslash then
    String backslash (String c EmptyString)
  else if Nat.eqb n 9 then String backslash "t"
  else if Nat.eqb n 10 then String backslash "n"
  else if Nat.eqb n 13 then String backslash "r"
  else if printable c then String c EmptyString
  else String backslash
         (String "x"%char (String (hex_digit (Nat.div n 16))
                        (String (hex_digit (Nat.modulo n 16)) EmptyString))).

Fixpoint escape (quote : ascii) (s : string) : string :=
  match s with
  | EmptyString => EmptyString
  | String c s' => escape_char quote c ++ escape quote s'
  end.

Fixpoint has_char (c : ascii) (s : string) : bool :=
  match s with
  | EmptyString => false
  | String c' s' => Ascii.eqb c c' || has_char c s'
  end.

(** [repr(s)] for a [str]: single quotes, unless the text has a single
    quote and no double quote. *)
Definition repr_str (s : string) : string :=
  let quote :=
    if has_char single_quote s && negb (has_char double_quote s)
    then double_quote else single_quote in
  String quote (escape quote s ++ String quote EmptyString).

(** [repr(v)]. *)
Fixpoint py_repr (v : value) : string :=
  match v with
  | VNone => "None"
  | VBool true => "True"
  | VBool false => "False"
  | VInt z => str_of_int z
  | VStr s => repr_str s
  | VList l => "[" ++ join ", " (map py_repr l) ++ "]"
  | VDict kvs =>
      "{" ++ join ", "
               (map (fun kv => match kv with
                               | (k, x) => repr_str k ++ ": " ++ py_repr x
                               end) kvs) ++ "}"
  end.

(** [str(v)], also what an f-string substitutes for [{v}]. *)
Definition py_str (v : value) : string :=
  match v with
  | VStr s => s
  | _ => py_repr v
  end.

(* ================================================================= *)
(** ** The classifier: [process_workflows] *)

Definition openrouter_type : string := "@n8n/n8n-nodes-langchain.lmChatOpenRouter".

(** The local variables that the loop over the nodes of one workflow
    updates. *)
Record node_acc : Type := mk_node_acc {
  has_openrouter : bool;
  has_other_model : bool;
  chat_models : list value;
  keys : list value;
  models : list value
}.

Definition node_acc_init : node_acc := mk_node_acc false false [] [] [].

(** Body of [for cred_val in credentials.values()]. *)
Definition add_key (ks : list value) (cred_val : value) : list value :=
  match cred_val with
  | VDict kvs =>
      match lookup "name" kvs with
      | Some name => (ks ++ [name])%list
      | None => ks
      end
  | _ => ks
  end.

(** Body of [for node in nodes] (lines 89 to 117). *)
Definition process_node (node : value) (acc : node_acc) : result node_acc :=
  node_type <- py_get node "type" VNone ;;
  node_name <- py_get node "name" VNone ;;
  let is_openrouter := eq_str node_type openrouter_type in
  is_other_chat <-
    (in_type <- py_in "lmChat" node_type ;;
     if in_type then Ok true else py_in "ChatModel" node_name) ;;
  if is_openrouter || is_other_chat then
    let has_openrouter' := if is_openrouter then true else has_openrouter acc in
    let has_other_model' := if is_openrouter then has_other_model acc else true in
    let chat_models' := (chat_models acc ++ [node_name])%list in
    credentials <- py_get node "credentials" (VDict []) ;;
    cred_vals <- py_values credentials ;;
    let keys' := fold_left add_key cred_vals (keys acc) in
    if is_openrouter then
      parameters <- py_get node "parameters" (VDict []) ;;
      model_val <- py_get parameters "model" VNone ;;
      let models' :=
        if py_truthy model_val then
          if is_dict model_val then (models acc ++ [VStr "Dynamic"])%list
          else (models acc ++ [VStr (py_str model_val)])%list
        else models acc in
      Ok (mk_node_acc has_openrouter' has_other_model' chat_models' keys' models')
    else
      Ok (mk_node_acc has_openrouter' has_other_model' chat_models' keys' (models acc))
  else Ok acc.

(** [", ".join(xs) if xs else placeholder]. *)
Definition join_or (placeholder : string) (xs : list value) : result string :=
  match xs with
  | [] => Ok placeholder
  | _ :: _ => py_join ", " xs
  end.

(** The three lists that [process_workflows] builds and returns:
    [openrouter_workflows], [other_model_workflows], [all_workflows_data]. *)
Definition lists : Type := (list value * list value * list value)%type.

(** Body of [for workflow in workflows] (lines 77 to 134). *)
Definition process_workflow (workflow : value) (out : lists) : result lists :=
  let '(openrouter_workflows, other_model_workflows, all_workflows_data) := out in
  workflow_name <- py_get workflow "name" (VStr "Unnamed Workflow") ;;
  workflow_id <- py_get workflow "id" VNone ;;
  nodes <- py_get workflow "nodes" (VList []) ;;
  node_items <- py_iter nodes ;;
  acc <- for_each process_node node_items node_acc_init ;;
  active <- py_get workflow "active" (VBool false) ;;
  chat_model_used <- join_or "None" (chat_models acc) ;;
  key <- join_or "None" (keys acc) ;;
  model_used <- join_or EmptyString (models acc) ;;
  let workflow_info :=
    VDict [("ID", workflow_id);
           ("Name", workflow_name);
           ("Active", active);
           ("Chat Model Used", VStr chat_model_used);
           ("Key", VStr key);
           ("Model Used", VStr model_used)] in
  let all_workflows_data := (all_workflows_data ++ [workflow_info])%list in
  let openrouter_workflows :=
    if has_openrouter acc then (openrouter_workflows ++ [workflow_info])%list
    else openrouter_workflows in
  let other_model_workflows :=
    if has_other_model acc then (other_model_workflows ++ [workflow_info])%list
    else other_model_workflows in
  Ok (openrouter_workflows, other_model_workflows, all_workflows_data).

Definition process_workflows (data : value) : result lists :=
  has_error <- py_in "error" data ;;
  if has_error then Ok ([], [], [])
  else
    workflows <- py_get data "data" (VList []) ;;
    workflow_items <- py_iter workflows ;;
    for_each process_workflow workflow_items ([], [], []).

(* ================================================================= *)
(** ** The fetcher: [fetch_workflows_generator] *)

(* ----------------------------------------------------------------- *)
(** *** The process environment and [int] *)

(** [os.environ], read only. *)
Definition environ : Type := string -> option string.

(** [os.getenv(name, default)]. *)
Definition getenv (env : environ) (name : string) (default : value) : value :=
  match env name with
  | Some s => VStr s
  | None => default
  end.

(** White space as [int] strips it from both ends of its argument. *)
Definition is_space (c : ascii) : bool :=
  let n := nat_of_ascii c in
  (Nat.leb 9 n && Nat.leb n 13) || (Nat.leb 28 n && Nat.leb n 32)
  || Nat.eqb n 133 || Nat.eqb n 160.

Fixpoint lstrip (cs : list ascii) : list ascii :=
  match cs with
  | c :: cs' => if is_space c then lstrip cs' else cs
  | [] => []
  end.

Definition strip (cs : list ascii) : list ascii := rev (lstrip (rev (lstrip cs))).

Definition digit_value (c : ascii) : option Z :=
  let n := nat_of_ascii c in
  if Nat.leb 48 n && Nat.leb n 57 then Some (Z.of_nat (n - 48)) else None.

(** Decimal digits, single underscores allowed between two digits. *)
Fixpoint parse_digits (cs : list ascii) (acc : Z) (after_digit : bool) : option Z :=
  match cs with
  | [] => if after_digit then Some acc else None
  | c :: cs' =>
      if Ascii.eqb c "_"%char then
        if after_digit then parse_digits cs' acc false else None
      else
        match digit_value c with
        | Some d => parse_digits cs' (10 * acc + d)%Z true
        | None => None
        end
  end.

(** [int(s)] for a [str] in base 10; [None] stands for [ValueError].  (The
    interpreter's bound on the number of digits is left out.) *)
Definition int_of_string (s : string) : option Z :=
  match strip (list_ascii_of_string s) with
  | c :: cs =>
      if Ascii.eqb c "-"%char then option_map Z.opp (parse_digits cs 0%Z false)
      else if Ascii.eqb c "+"%char then parse_digits cs 0%Z false
      else parse_digits (c :: cs) 0%Z false
  | [] => None
  end.

(* ----------------------------------------------------------------- *)
(** *** The HTTP side *)

(** What [requests.get] was called with. *)
Record request : Type := mk_request {
  req_url : value;
  req_headers : list (string * value);
  req_params : list (string * value)
}.

(** A [requests.Response] as the generator observes it: [http_error] is the
    message of the [HTTPError] that [raise_for_status()] raises ([None] when
    it returns; the library raises for the 4xx and 5xx codes), [json] the
    value that [json()] returns ([None] when it raises its
    [JSONDecodeError]). *)
Record response : Type := mk_response {
  status_code : Z;
  text : string;
  http_error : option string;
  json : option value
}.

(** [bool(response)], which is [response.ok]. *)
Definition response_ok (r : response) : bool :=
  match http_error r with
  | None => true
  | Some _ => false
  end.

(** What one call of [requests.get] does: raise or return a response. *)
Inductive get_result : Type :=
| GetRaises (c : exn_class) (msg : string)
| GetReturns (r : response).

(** How a run of the generator ends: it returns ([StopIteration] for the
    consumer), an exception reaches the consumer, or it is still inside
    [requests.get] because the server has answered nothing more. *)
Inductive ending : Type :=
| Finished
| Raised (c : exn_class) (msg : string)
| Waiting.

Record run : Type := mk_run {
  yields : list value;
  requests : list request;
  ending_of : ending
}.

(** How the [try] block is left. *)
Inductive try_end : Type :=
| Break
| Thrown (c : exn_class) (msg : string)
| Blocked.

(** The [try] block: what it yields and requests, the local variable
    [response] when it is left ([None]: not in [locals()]), and how it is
    left. *)
Record try_run : Type := mk_try_run {
  try_yields : list value;
  try_requests : list request;
  try_response : option response;
  try_ending : try_end
}.

Definition error_value (msg : string) : value := VDict [("error", VStr msg)].

(** [type(v).__name__]. *)
Definition type_name (v : value) : string :=
  match v with
  | VNone => "NoneType"
  | VBool _ => "bool"
  | VInt _ => "int"
  | VStr _ => "str"
  | VList _ => "list"
  | VDict _ => "dict"
  end.

(** Prefix a yielded batch and its request to the rest of the loop. *)
Definition after_batch (workflows : value) (req : request) (t : try_run) : try_run :=
  mk_try_run (workflows :: try_yields t) (req :: try_requests t)
             (try_response t) (try_ending t).

(** [while True:] (lines 37 to 52).  The answers of the server are taken
    from [script], one per request. *)
Fixpoint fetch_loop (api_url : value) (headers : list (string * value))
    (batch_size : Z) (cursor : value) (response_local : option response)
    (script : list get_result) : try_run :=
  let params :=
    (("limit", VInt batch_size)
       :: (if py_truthy cursor then [("cursor", cursor)] else []))%list in
  let req := mk_request api_url headers params in
  match script with
  | [] => mk_try_run [] [req] response_local Blocked
  | GetRaises c msg :: _ => mk_try_run [] [req] response_local (Thrown c msg)
  | GetReturns r :: script' =>
      match http_error r with
      | Some msg => mk_try_run [] [req] (Some r) (Thrown HTTPError msg)
      | None =>
          match json r with
          | None => mk_try_run [] [req] (Some r) (Thrown JSONDecodeError "Expecting value")
          | Some data =>
              match py_get data "data" (VList []) with
              | Raise c =>
                  mk_try_run [] [req] (Some r)
                    (Thrown c ("'" ++ type_name data
                                   ++ "' object has no attribute 'get'"))
              | Ok workflows =>
                  match py_get data "nextCursor" VNone with
                  | Raise c =>
                      mk_try_run [workflows] [req] (Some r)
                        (Thrown c ("'" ++ type_name data
                                       ++ "' object has no attribute 'get'"))
                  | Ok cursor' =>
                      if negb (py_truthy cursor') then
                        mk_try_run [workflows] [req] (Some r) Break
                      else
                        after_batch workflows req
                          (fetch_loop api_url headers batch_size cursor'
                                      (Some r) script')
                  end
              end
          end
      end
  end.

(** The body of [try:] (lines 35 to 52). *)
Definition try_body (env : environ) (api_url : value)
    (headers : list (string * value)) (script : list get_result) : try_run :=
  match getenv env "N8N_BATCH_SIZE" (VInt 20) with
  | VInt z => fetch_loop api_url headers z VNone None script
  | VStr s =>
      match int_of_string s with
      | Some z => fetch_loop api_url headers z VNone None script
      | None =>
          mk_try_run [] [] None
            (Thrown ValueError
               ("invalid literal for int() with base 10: " ++ repr_str s))
      end
  | v =>
      mk_try_run [] [] None
        (Thrown TypeError
           ("int() argument must be a string, a bytes-like object or a real number, not '"
              ++ type_name v ++ "'"))
  end.

(** The three [except] clauses (lines 54 to 61), tried in order; an
    exception that none of them matches leaves the generator. *)
Definition handlers (api_url : value) (t : try_run) (c : exn_class) (msg : string)
  : run :=
  if is_ValueError c then
    let present :=
      match try_response t with
      | Some r => response_ok r
      | None => false
      end in
    let content :=
      match try_response t with
      | Some r => if present then py_slice_to 500 (text r) else "No response content"
      | None => "No response content"
      end in
    let status :=
      match try_response t with
      | Some r => if present then str_of_int (status_code r) else "Unknown"
      | None => "Unknown"
      end in
    mk_run (try_yields t
              ++ [error_value ("Failed to decode JSON. Status: " ++ status
                                 ++ ", URL: " ++ py_str api_url
                                 ++ ", Content: " ++ content ++ "...")])%list
           (try_requests t) Finished
  else if is_RequestException c then
    mk_run (try_yields t ++ [error_value ("Request failed: " ++ msg)])%list
           (try_requests t) Finished
  else if is_Exception c then
    mk_run (try_yields t
              ++ [error_value ("An unexpected error occurred: " ++ msg)])%list
           (try_requests t) Finished
  else mk_run (try_yields t) (try_requests t) (Raised c msg).

(** [os.getenv] fills in the arguments that were not given (lines 11 to
    17); the result is the pair of [api_url] and [api_key]. *)
Definition resolve (env : environ) (api_url api_key : value) : value * value :=
  let api_key :=
    if negb (py_truthy api_key) then getenv env "N8N_API_KEY" VNone
    else api_key in
  let api_url :=
    if negb (py_truthy api_url) then
      let base_url := getenv env "N8N_BASE_URL" VNone in
      if py_truthy base_url then VStr (py_str base_url ++ "/api/v1/workflows")
      else api_url
    else api_url in
  (api_url, api_key).

Definition fetch_workflows_generator (env : environ) (api_url api_key : value)
    (script : list get_result) : run :=
  let '(api_url, api_key) := resolve env api_url api_key in
  if negb (py_truthy api_key) then
    mk_run [error_value "API key not found. Please set N8N_API_KEY in .env file."]
           [] Finished
  else if negb (py_truthy api_url) then
    mk_run [error_value
              "API URL not found. Please set N8N_BASE_URL in .env file or pass api_url."]
           [] Finished
  else
    let headers := [("X-N8N-API-KEY", api_key)] in
    let t := try_body env api_url headers script in
    match try_ending t with
    | Break => mk_run (try_yields t) (try_requests t) Finished
    | Blocked => mk_run (try_yields t) (try_requests t) Waiting
    | Thrown c msg => handlers api_url t c msg
    end.

(** A call of the function with keyword arguments, as [app.py] writes it:
    the signature is [(api_url=None, api_key=None)], and a keyword that
    names no parameter is a [TypeError] at the call. *)
Inductive call_result : Type :=
| CallRaises (c : exn_class) (msg : string)
| CallReturns (r : run).

Fixpoint bind_keywords (kwargs : list (string * value)) (api_url api_key : value)
  : value * value + string :=
  match kwargs with
  | [] => inl (api_url, api_key)
  | (k, v) :: kwargs' =>
      if String.eqb k "api_url" then bind_keywords kwargs' v api_key
      else if String.eqb k "api_key" then bind_keywords kwargs' api_url v
      else inr k
  end.

Definition call_fetch_workflows_generator (env : environ)
    (kwargs : list (string * value)) (script : list get_result) : call_result :=
  match bind_keywords kwargs VNone VNone with
  | inl (api_url, api_key) =>
      CallReturns (fetch_workflows_generator env api_url api_key script)
  | inr k =>
      CallRaises TypeError
        ("fetch_workflows_generator() got an unexpected keyword argument '"
           ++ k ++ "'")
  end.

(* ----------------------------------------------------------------- *)
(** *** Pages of the listing endpoint *)

(** The page size that line 35 reads: [N8N_BATCH_SIZE], else 20. *)
Definition configured_batch_size (env : environ) : option Z :=
  match env "N8N_BATCH_SIZE" with
  | None => Some 20%Z
  | Some s => int_of_string s
  end.


(** The decoded body of an answer, when it is a JSON object. *)
Definition body_of (g : get_result) : option (list (string * value)) :=
  match g with
  | GetReturns r =>
      match http_error r, json r with
      | None, Some (VDict kvs) => Some kvs
      | _, _ => None
      end
  | GetRaises _ _ => None
  end.

(** The [data] array of a page, and its [nextCursor]. *)
Definition page_data (g : get_result) : value :=
  match body_of g with
  | Some kvs => match lookup "data" kvs with Some v => v | None => VList [] end
  | None => VList []
  end.










(** An argument that is not given and not in the environment either. *)
Definition unresolved (env : environ) (arg : value) (name : string) : bool :=
  negb (py_truthy arg) && negb (py_truthy (getenv env name VNone)).

(* ================================================================= *)
(** ** Declarative description of the classification *)

(** The rows of section 3 of the specification, written as maps and
    filters over the nodes; the theorems below compare the loops of
    [process_workflows] with them. *)
Module Spec.

Definition field (d : value) (k : string) (default : value) : value :=
  match d with
  | VDict kvs => match lookup k kvs with Some v => v | None => default end
  | _ => default
  end.

Definition text_field (d : value) (k : string) : string :=
  match field d k VNone with
  | VStr s => s
  | _ => EmptyString
  end.

Definition nodes_of (w : value) : list value :=
  match field w "nodes" (VList []) with
  | VList ns => ns
  | _ => []
  end.

(** Preferred: the type is the sentinel.  Other: not preferred, and the
    type has the marker or the name has the marker. *)
Definition is_preferred (n : value) : bool :=
  String.eqb (text_field n "type") openrouter_type.

Definition is_other (n : value) : bool :=
  negb (is_preferred n)
  && (contains "lmChat" (text_field n "type")
      || contains "ChatModel" (text_field n "name")).

Definition is_chat_model (n : value) : bool := is_preferred n || is_other n.

Definition credential_name (c : value) : list string :=
  match c with
  | VDict kvs =>
      match lookup "name" kvs with
      | Some (VStr s) => [s]
      | _ => []
      end
  | _ => []
  end.

Definition credential_names (n : value) : list string :=
  match field n "credentials" (VDict []) with
  | VDict cs => flat_map credential_name (map snd cs)
  | _ => []
  end.

Definition model_param (n : value) : option value :=
  match field n "parameters" (VDict []) with
  | VDict ps => lookup "model" ps
  | _ => None
  end.

Definition model_entry (n : value) : list string :=
  match model_param n with
  | Some v =>
      if py_truthy v then if is_dict v then ["Dynamic"] else [py_str v]
      else []
  | None => []
  end.

Definition has_preferred_node (w : value) : bool := existsb is_preferred (nodes_of w).

Definition has_other_node (w : value) : bool := existsb is_other (nodes_of w).

Definition chat_model_names (w : value) : list string :=
  map (fun n => text_field n "name") (filter is_chat_model (nodes_of w)).

Definition key_names (w : value) : list string :=
  flat_map credential_names (filter is_chat_model (nodes_of w)).

Definition model_names (w : value) : list string :=
  flat_map model_entry (filter is_preferred (nodes_of w)).

Definition display (placeholder : string) (l : list string) : string :=
  match l with
  | [] => placeholder
  | _ :: _ => join ", " l
  end.

Definition row (w : value) : value :=
  VDict [("ID", field w "id" VNone);
         ("Name", field w "name" (VStr "Unnamed Workflow"));
         ("Active", field w "active" (VBool false));
         ("Chat Model Used", VStr (display "None" (chat_model_names w)));
         ("Key", VStr (display "None" (key_names w)));
         ("Model Used", VStr (display EmptyString (model_names w)))].

End Spec.

(* ----------------------------------------------------------------- *)
(** *** Records of the data model *)

Definition is_str (v : value) : bool :=
  match v with
  | VStr _ => true
  | _ => false
  end.

(** A credential reference whose [name], if it is a mapping that has one,
    is a string. *)
Definition well_formed_credential (c : value) : bool :=
  match c with
  | VDict kvs =>
      match lookup "name" kvs with
      | Some v => is_str v
      | None => true
      end
  | _ => true
  end.

(** A node: a mapping with a string [type], a string [name] and, where
    given, mappings [credentials] and [parameters]. *)
Definition well_formed_node (n : value) : bool :=
  match n with
  | VDict kvs =>
      match lookup "type" kvs with Some (VStr _) => true | _ => false end
      && match lookup "name" kvs with Some (VStr _) => true | _ => false end
      && match lookup "credentials" kvs with
         | None => true
         | Some (VDict cs) => forallb well_formed_credential (map snd cs)
         | Some _ => false
         end
      && match lookup "parameters" kvs with
         | None | Some (VDict _) => true
         | Some _ => false
         end
  | _ => false
  end.

(** A workflow record: a mapping whose [nodes], where given, is a sequence
    of nodes. *)
Definition well_formed_workflow (w : value) : bool :=
  match w with
  | VDict kvs =>
      match lookup "nodes" kvs with
      | None => true
      | Some (VList ns) => forallb well_formed_node ns
      | Some _ => false
      end
  | _ => false
  end.

(** The argument that [app.py] passes to [process_workflows]. *)
Definition classifier_input (workflows : list value) : value :=
  VDict [("data", VList workflows)].

(** [needle] occurs in [hay]. *)
Definition occurs_in (needle hay : string) : Prop :=
  exists before after, hay = before ++ needle ++ after.

(* ================================================================= *)
(** ** Sample data *)

Definition sample_environ : environ := fun _ => None.

Definition sample_url : value := VStr "https://n8n.example.com/api/v1/workflows".

Definition sample_key : value := VStr "n8n_api_secret".

(** An OpenRouter chat model node with a literal model. *)
Definition openrouter_node : value :=
  VDict [("type", VStr openrouter_type);
         ("name", VStr "OpenRouter Chat Model");
         ("credentials",
          VDict [("openRouterApi",
                  VDict [("id", VStr "17"); ("name", VStr "OpenRouter account")])]);
         ("parameters", VDict [("model", VStr "gpt-4")])].

(** A chat model node of another provider. *)
Definition openai_node : value :=
  VDict [("type", VStr "@n8n/n8n-nodes-langchain.lmChatOpenAi");
         ("name", VStr "OpenAI Chat Model");
         ("credentials",
          VDict [("openAiApi",
                  VDict [("id", VStr "3"); ("name", VStr "OpenAI account")])]);
         ("parameters", VDict [("model", VStr "gpt-4o")])].

(** A node that is no chat model. *)
Definition set_node : value :=
  VDict [("type", VStr "n8n-nodes-base.set"); ("name", VStr "Edit Fields")].

Definition workflow_both : value :=
  VDict [("id", VStr "w1"); ("name", VStr "Support bot"); ("active", VBool true);
         ("nodes", VList [set_node; openrouter_node; openai_node])].

Definition workflow_plain : value :=
  VDict [("id", VStr "w2"); ("name", VStr "Nightly export");
         ("nodes", VList [set_node])].

Definition workflow_empty : value :=
  VDict [("id", VStr "w3"); ("name", VStr "Draft"); ("nodes", VList [])].

(** Only an OpenRouter node. *)
Definition workflow_openrouter_only : value :=
  VDict [("id", VStr "w4"); ("name", VStr "Summaries");
         ("nodes", VList [openrouter_node])].

(** An OpenRouter node whose [model] parameter is an empty mapping. *)
Definition openrouter_node_empty_model : value :=
  VDict [("type", VStr openrouter_type);
         ("name", VStr "OpenRouter Chat Model");
         ("parameters", VDict [("model", VDict [])])].

(** Nodes without a [type], and without a [name]. *)
Definition node_without_type : value := VDict [("name", VStr "Agent")].

Definition node_without_name : value := VDict [("type", VStr "n8n-nodes-base.set")].

(** Two pages of the listing endpoint, and an answer that is not JSON. *)
Definition first_page : get_result :=
  GetReturns
    (mk_response 200 "{...}" None
       (Some (VDict [("data", VList [workflow_both; workflow_plain]);
                     ("nextCursor", VStr "eyJsYXN0SWQiOiJ3MiJ9")]))).

Definition second_page : get_result :=
  GetReturns
    (mk_response 200 "{...}" None
       (Some (VDict [("data", VList [workflow_empty])]))).


(* ================================================================= *)
(** ** The caller: the fetch action of [app.py] *)

(** [base_url_input.rstrip('/')]. *)
Fixpoint rstrip_slash (s : string) : string :=
  match s with
  | EmptyString => EmptyString
  | String c s' =>
      let r := rstrip_slash s' in
      if Ascii.eqb c "/"%char && String.eqb r EmptyString then EmptyString
      else String c r
  end.

(** The endpoint that the fetch action builds from the text input (lines
    183 to 187). *)
Definition app_api_url (base_url_input : string) : value :=
  if py_truthy (VStr base_url_input) then
    VStr (rstrip_slash base_url_input ++ "/api/v1/workflows")
  else VNone.

(** [all_workflows_dict]: a [dict] keyed by workflow ids, in insertion
    order. *)
Definition store : Type := list (value * value).

(** Lists and mappings cannot be keys of a [dict]. *)
Definition hashable (v : value) : bool :=
  match v with
  | VList _ | VDict _ => false
  | _ => true
  end.

(** [a == b] on keys; [True] and [False] are the integers 1 and 0. *)
Definition key_eqb (a b : value) : bool :=
  match a, b with
  | VNone, VNone => true
  | VStr s, VStr t => String.eqb s t
  | VInt x, VInt y => Z.eqb x y
  | VBool x, VBool y => Bool.eqb x y
  | VBool x, VInt y => Z.eqb (if x then 1 else 0) y
  | VInt x, VBool y => Z.eqb x (if y then 1 else 0)
  | _, _ => false
  end.

(** [d[k] = v] on a hashable key: the entry of an equal key keeps its
    place and takes the new value, a new key goes to the end. *)
Fixpoint store_set (d : store) (k v : value) : store :=
  match d with
  | [] => [(k, v)]
  | (k', v') :: d' =>
      if key_eqb k' k then (k', v) :: d' else (k', v') :: store_set d' k v
  end.

Definition py_setitem (d : store) (k v : value) : result store :=
  if hashable k then Ok (store_set d k v) else Raise TypeError.

(** [d.get(k)] on the store. *)
Fixpoint store_get (d : store) (k : value) : option value :=
  match d with
  | [] => None
  | (k', v') :: d' => if key_eqb k' k then Some v' else store_get d' k
  end.

(** Body of [for wf in batch] (lines 198 to 200). *)
Definition accumulate_workflow (wf : value) (d : store) : result store :=
  wf_id <- py_get wf "id" VNone ;;
  if py_truthy wf_id then py_setitem d wf_id wf else Ok d.

(** [for wf in batch] (lines 197 to 200). *)
Definition accumulate (batch : value) (d : store) : result store :=
  items <- py_iter batch ;;
  for_each accumulate_workflow items d.

(** [list(all_workflows_dict.values())]. *)
Definition store_values (d : store) : list value := map snd d.

(** What the fetch action shows. *)
Inductive event : Type :=
| StatusError (msg : value)
| StatusWrite (msg : string)
| Dashboard (shown : lists)
| StatusComplete.

(** How the fetch action ends: the lists go to the session state,
    [st.stop()] halts the script, an exception leaves it, or line 218
    reads lists that no iteration has assigned. *)
Inductive app_end : Type :=
| AppDone (final : lists)
| AppStopped
| AppRaised (c : exn_class)
| AppUnbound.

Record app_run : Type := mk_app_run {
  events : list event;
  app_ending : app_end
}.

(** The error test of line 192 and the message of line 193. *)
Definition error_of (batch : value) : option value :=
  match batch with
  | VDict kvs => lookup "error" kvs
  | _ => None
  end.

(** The loop of lines 190 to 212 over the values that the generator
    yields, and lines 214 to 221 after it.  [d] is [all_workflows_dict],
    [assigned] the lists of the last iteration, [log] what was shown so
    far.  The values are given: the call of line 190 that produces them is
    not part of this function, and the calls of [status] and of
    [render_dashboard] are recorded as events and taken to return. *)
Fixpoint drive (batches : list value) (d : store) (assigned : option lists)
    (log : list event) : app_run :=
  match batches with
  | [] =>
      match assigned with
      | Some final => mk_app_run (log ++ [StatusComplete])%list (AppDone final)
      | None => mk_app_run (log ++ [StatusComplete])%list AppUnbound
      end
  | batch :: rest =>
      match error_of batch with
      | Some msg => mk_app_run (log ++ [StatusError msg])%list AppStopped
      | None =>
          match accumulate batch d with
          | Raise c => mk_app_run log (AppRaised c)
          | Ok d' =>
              let all_workflows_accumulated := store_values d' in
              let log' :=
                (log ++ [StatusWrite
                           ("Fetched "
                              ++ str_of_int
                                   (Z.of_nat (List.length all_workflows_accumulated))
                              ++ " workflows...")])%list in
              match process_workflows (classifier_input all_workflows_accumulated) with
              | Raise c => mk_app_run log' (AppRaised c)
              | Ok shown => drive rest d' (Some shown) (log' ++ [Dashboard shown])%list
              end
          end
      end
  end.

(** [get_table_height] (lines 117 to 120), on the number of rows. *)
Definition get_table_height (rows : nat) : nat :=
  Nat.max 150 ((rows + 1) * 35 + 3).

(** The id under which line 198 files a workflow. *)
Definition id_of (wf : value) : value := Spec.field wf "id" VNone.

(** A workflow that the loop of lines 197 to 200 takes without an
    exception: a mapping whose id can be a key. *)
Definition storable (wf : value) : bool :=
  match wf with
  | VDict _ => hashable (id_of wf)
  | _ => false
  end.

(** Whether a yielded value counts as an error at line 192. *)
Definition is_error_value (v : value) : bool :=
  match error_of v with
  | Some _ => true
  | None => false
  end.

(** An environment that holds the three settings. *)
Definition configured_environ : environ :=
  fun name =>
    if String.eqb name "N8N_BASE_URL" then Some "https://n8n.example.com"
    else if String.eqb name "N8N_API_KEY" then Some "n8n_api_secret"
    else if String.eqb name "N8N_BATCH_SIZE" then Some "50"
    else None.

(** An environment whose page size is not a number. *)
Definition misconfigured_environ : environ :=
  fun name => if String.eqb name "N8N_BATCH_SIZE" then Some "fifty" else None.


(** A node that neither test of line 92 and 93 takes for a chat model: a
    mapping with a string type without the marker and a string name
    without the marker; nothing is asked of its other fields. *)
Definition plain_node (n : value) : bool :=
  match n with
  | VDict kvs =>
      match lookup "type" kvs, lookup "name" kvs with
      | Some (VStr t), Some (VStr nm) =>
          negb (contains "lmChat" t) && negb (contains "ChatModel" nm)
      | _, _ => false
      end
  | _ => false
  end.

(** A node that is no chat model and whose other fields are not what the
    data model asks for. *)
Definition odd_plain_node : value :=
  VDict [("type", VStr "n8n-nodes-base.httpRequest"); ("name", VStr "Call API");
         ("credentials", VInt 5); ("parameters", VStr "none")].

(** The decoded body of a page, as the server sends it. *)
Definition page_body : list (string * value) :=
  [("data", VList [workflow_both; workflow_plain]);
   ("nextCursor", VStr "eyJsYXN0SWQiOiJ3MiJ9")].

(** [k] slashes. *)
Fixpoint slashes (k : nat) : string :=
  match k with
  | 0 => EmptyString
  | S k' => String "/"%char (slashes k')
  end.

(** A batch of workflow records that can be filed: a list of records of
    the data model whose ids can be keys. *)
Definition record_batch (batch : value) : bool :=
  match batch with
  | VList ws =>
      forallb (fun w => well_formed_workflow w && hashable (id_of w)) ws
  | _ => false
  end.

(** The rows that the classifier gives for a list of workflow records. *)
Definition classification (ws : list value) : lists :=
  (map Spec.row (filter Spec.has_preferred_node ws),
   map Spec.row (filter Spec.has_other_node ws),
   map Spec.row ws).

(** A later version of [workflow_plain], and a record without an id. *)
Definition workflow_plain_renamed : value :=
  VDict [("id", VStr "w2"); ("name", VStr "Nightly export v2");
         ("nodes", VList [set_node; openai_node])].

Definition workflow_without_id : value :=
  VDict [("name", VStr "Scratch"); ("nodes", VList [])].

(** No two workflows of the list have equal ids. *)
Definition distinct_ids (ws : list value) : Prop :=
  ForallOrdPairs (fun a b => key_eqb (id_of a) (id_of b) = false) ws.

(** What the loop of lines 197 to 200 keeps true of the store: the keys
    are pairwise different, and every workflow is filed under a key equal
    to its id, which is not a false value. *)
Definition store_invariant (d : store) : Prop :=
  ForallOrdPairs (fun a b => key_eqb a b = false) (map fst d)
  /\ Forall (fun kv => key_eqb (fst kv) (id_of (snd kv)) = true
                       /\ py_truthy (id_of (snd kv)) = true) d.

(* ----------------------------------------------------------------- *)
(** *** Status codes and the library *)









(** An OpenRouter node whose name carries the name marker. *)
Definition openrouter_node_marker_name : value :=
  VDict [("type", VStr openrouter_type); ("name", VStr "OpenRouter ChatModel")].

(* ================================================================= *)
(** ** Properties of the Python operations *)

Lemma prefix_occurs : forall needle hay,
  prefix needle hay = true -> exists after, hay = needle ++ after.
Proof.
  induction needle as [| c needle IH]; intros hay H.
  - exists hay. reflexivity.
  - destruct hay as [| c' hay]; simpl in H; [discriminate |].
    destruct (ascii_dec c c') as [-> | ]; [| discriminate].
    destruct (IH _ H) as [after ->]. exists after. reflexivity.
Qed.

Lemma occurs_prefix : forall needle after, prefix needle (needle ++ after) = true.
Proof.
  induction needle as [| c needle IH]; intros after; simpl.
  - destruct after; reflexivity.
  - destruct (ascii_dec c c); [apply IH | congruence].
Qed.

(** [contains] decides occurrence as a substring. *)
Lemma contains_occurs_in : forall needle hay,
  contains needle hay = true <-> occurs_in needle hay.
Proof.
  intros needle hay; split.
  - induction hay as [| c hay IH]; intros H; cbn [contains] in H.
    + apply orb_true_iff in H. destruct H as [H | H]; [| discriminate].
      destruct (prefix_occurs _ _ H) as [after E].
      exists EmptyString, after. exact E.
    + apply orb_true_iff in H. destruct H as [H | H].
      * destruct (prefix_occurs _ _ H) as [after E].
        exists EmptyString, after. exact E.
      * destruct (IH H) as [before [after E]].
        exists (String c before), after. simpl. rewrite E. reflexivity.
  - intros [before [after E]]. subst hay.
    induction before as [| c before IH].
    + change (EmptyString ++ needle ++ after) with (needle ++ after).
      destruct (needle ++ after) eqn:E; cbn [contains]; rewrite <- E;
        rewrite occurs_prefix; reflexivity.
    + change (String c before ++ needle ++ after)
        with (String c (before ++ needle ++ after)).
      cbn [contains]. rewrite IH. apply orb_true_r.
Qed.

Lemma strings_of_strs : forall l, strings_of (map VStr l) = Ok l.
Proof.
  induction l as [| s l IH]; simpl; [reflexivity |].
  rewrite IH. reflexivity.
Qed.

Lemma join_or_strs : forall placeholder l,
  join_or placeholder (map VStr l) = Ok (Spec.display placeholder l).
Proof.
  intros placeholder [| s l]; [reflexivity |].
  unfold join_or, py_join. change (VStr s :: map VStr l) with (map VStr (s :: l)).
  rewrite strings_of_strs. reflexivity.
Qed.

Lemma fold_add_key : forall vals ks,
  forallb well_formed_credential vals = true ->
  fold_left add_key vals ks
  = (ks ++ map VStr (flat_map Spec.credential_name vals))%list.
Proof.
  induction vals as [| c vals IH]; intros ks H; simpl.
  - rewrite app_nil_r. reflexivity.
  - simpl in H. apply andb_true_iff in H. destruct H as [Hc Hvals].
    rewrite (IH _ Hvals). clear IH Hvals.
    destruct c as [| b | z | s | l | kvs]; simpl; try reflexivity.
    simpl in Hc. destruct (lookup "name" kvs) as [[| b | z | s | l | kvs'] |];
      simpl in Hc; try discriminate; simpl; try reflexivity.
    rewrite <- app_assoc. reflexivity.
Qed.

(* ================================================================= *)
(** ** The loops of the classifier against the declarative rows *)

(** The sentinel carries the marker, so a preferred node passes the first
    test of line 93. *)
Lemma preferred_has_marker : forall t,
  String.eqb t openrouter_type = true -> contains "lmChat" t = true.
Proof.
  intros t H. apply String.eqb_eq in H. subst t. reflexivity.
Qed.

(** One iteration of the loop over the nodes, on a node of the data model. *)
Lemma process_node_well_formed : forall n acc,
  well_formed_node n = true ->
  process_node n acc
  = Ok (mk_node_acc
          (has_openrouter acc || Spec.is_preferred n)
          (has_other_model acc || Spec.is_other n)
          (chat_models acc
             ++ map VStr (if Spec.is_chat_model n
                          then [Spec.text_field n "name"] else []))%list
          (keys acc
             ++ map VStr (if Spec.is_chat_model n
                          then Spec.credential_names n else []))%list
          (models acc
             ++ map VStr (if Spec.is_preferred n
                          then Spec.model_entry n else []))%list).
Proof.
  intros n acc H.
  destruct n as [| b | z | s | l | kvs]; try discriminate.
  unfold well_formed_node in H.
  destruct (lookup "type" kvs) as [[| | | t | |] |] eqn:Ht; try discriminate.
  destruct (lookup "name" kvs) as [[| | | nm | |] |] eqn:Hn; try discriminate.
  simpl in H. apply andb_true_iff in H. destruct H as [Hc Hp].
  unfold process_node, Spec.is_chat_model, Spec.is_other, Spec.is_preferred,
    Spec.credential_names, Spec.model_entry, Spec.model_param,
    Spec.text_field, Spec.field.
  cbn [py_get bind]. rewrite Ht, Hn. cbn [eq_str py_in bind].
  destruct acc as [ho hm cm ks ms]. cbn [has_openrouter has_other_model
    chat_models keys models].
  destruct (String.eqb t openrouter_type) eqn:Heq.
  - rewrite preferred_has_marker by exact Heq. cbn [bind orb negb andb].
    destruct (lookup "credentials" kvs) as [[| | | | | cs] |] eqn:Hcs;
      try discriminate; cbn [py_values bind];
      [rewrite fold_add_key by exact Hc | cbn [map fold_left flat_map]];
      (destruct (lookup "parameters" kvs) as [[| | | | | ps] |] eqn:Hps;
       try discriminate; cbn [py_get bind lookup];
       [ destruct (lookup "model" ps) as [v |]; cbn [py_truthy];
         [ destruct (py_truthy v); [destruct (is_dict v) |] |] |]);
      rewrite ?orb_true_r, ?orb_false_r, ?app_nil_r; reflexivity.
  - cbn [orb negb andb].
    destruct (contains "lmChat" t) eqn:Hlm; cbn [bind orb].
    + destruct (lookup "credentials" kvs) as [[| | | | | cs] |] eqn:Hcs;
        try discriminate; cbn [py_values bind];
        [rewrite fold_add_key by exact Hc | cbn [map fold_left flat_map]];
        rewrite ?orb_true_r, ?orb_false_r, ?app_nil_r; reflexivity.
    + destruct (contains "ChatModel" nm) eqn:Hcm; cbn [bind orb].
      * destruct (lookup "credentials" kvs) as [[| | | | | cs] |] eqn:Hcs;
          try discriminate; cbn [py_values bind];
          [rewrite fold_add_key by exact Hc | cbn [map fold_left flat_map]];
          rewrite ?orb_true_r, ?orb_false_r, ?app_nil_r; reflexivity.
      * cbn [map]. rewrite ?orb_false_r, ?app_nil_r. reflexivity.
Qed.

(** The loop over the nodes: the flags are the disjunction of the node
    tests, the collectors grow by the matching nodes, in order. *)
Lemma for_each_process_node : forall ns acc,
  forallb well_formed_node ns = true ->
  for_each process_node ns acc
  = Ok (mk_node_acc
          (has_openrouter acc || existsb Spec.is_preferred ns)
          (has_other_model acc || existsb Spec.is_other ns)
          (chat_models acc
             ++ map VStr (map (fun n => Spec.text_field n "name")
                              (filter Spec.is_chat_model ns)))%list
          (keys acc
             ++ map VStr (flat_map Spec.credential_names
                                   (filter Spec.is_chat_model ns)))%list
          (models acc
             ++ map VStr (flat_map Spec.model_entry
                                   (filter Spec.is_preferred ns)))%list).
Proof.
  induction ns as [| n ns IH]; intros acc H.
  - destruct acc. simpl. rewrite !orb_false_r, !app_nil_r. reflexivity.
  - simpl in H. apply andb_true_iff in H. destruct H as [Hn Hns].
    cbn [for_each]. rewrite process_node_well_formed by exact Hn. cbn [bind].
    rewrite IH by exact Hns. cbn [has_openrouter has_other_model chat_models keys models].
    cbn [existsb filter].
    destruct (Spec.is_chat_model n), (Spec.is_preferred n);
      cbn [map flat_map app];
      rewrite ?map_app, <- ?app_assoc, ?orb_assoc, ?app_nil_r; reflexivity.
Qed.

(** One iteration of the loop over the workflows. *)
Lemma process_workflow_well_formed : forall w p o a,
  well_formed_workflow w = true ->
  process_workflow w (p, o, a)
  = Ok ((p ++ if Spec.has_preferred_node w then [Spec.row w] else [])%list,
        (o ++ if Spec.has_other_node w then [Spec.row w] else [])%list,
        (a ++ [Spec.row w])%list).
Proof.
  intros w p o a H.
  destruct w as [| b | z | s | l | kvs]; try discriminate.
  unfold well_formed_workflow in H.
  assert (Hns : forallb well_formed_node (Spec.nodes_of (VDict kvs)) = true
                /\ py_iter (match lookup "nodes" kvs with
                            | Some v => v
                            | None => VList []
                            end) = Ok (Spec.nodes_of (VDict kvs))).
  { unfold Spec.nodes_of, Spec.field.
    destruct (lookup "nodes" kvs) as [[| | | | ns |] |]; try discriminate;
      split; auto. }
  destruct Hns as [Hwf Hiter].
  unfold process_workflow. cbn [py_get bind]. rewrite Hiter. cbn [bind].
  rewrite for_each_process_node by exact Hwf. cbn [bind].
  cbn [node_acc_init has_openrouter has_other_model chat_models keys models app orb].
  rewrite !join_or_strs. cbn [bind].
  unfold Spec.has_preferred_node, Spec.has_other_node.
  destruct (existsb Spec.is_preferred (Spec.nodes_of (VDict kvs))),
    (existsb Spec.is_other (Spec.nodes_of (VDict kvs)));
    rewrite ?app_nil_r; reflexivity.
Qed.

Lemma for_each_process_workflow : forall ws p o a,
  forallb well_formed_workflow ws = true ->
  for_each process_workflow ws (p, o, a)
  = Ok ((p ++ map Spec.row (filter Spec.has_preferred_node ws))%list,
        (o ++ map Spec.row (filter Spec.has_other_node ws))%list,
        (a ++ map Spec.row ws)%list).
Proof.
  induction ws as [| w ws IH]; intros p o a H.
  - simpl. rewrite !app_nil_r. reflexivity.
  - simpl in H. apply andb_true_iff in H. destruct H as [Hw Hws].
    cbn [for_each]. rewrite process_workflow_well_formed by exact Hw. cbn [bind].
    rewrite IH by exact Hws. cbn [filter map].
    destruct (Spec.has_preferred_node w), (Spec.has_other_node w);
      cbn [map app]; rewrite <- ?app_assoc, ?app_nil_r; reflexivity.
Qed.

(** The classifier computes the declarative rows: one per workflow in the
    order of the input, and the two sublists selected by the node tests. *)
Lemma process_workflows_rows : forall ws,
  forallb well_formed_workflow ws = true ->
  process_workflows (classifier_input ws)
  = Ok (map Spec.row (filter Spec.has_preferred_node ws),
        map Spec.row (filter Spec.has_other_node ws),
        map Spec.row ws).
Proof.
  intros ws H. unfold process_workflows, classifier_input.
  cbn [py_in lookup String.eqb Ascii.eqb Bool.eqb bind py_get py_iter].
  rewrite for_each_process_workflow by exact H. reflexivity.
Qed.

(* ================================================================= *)
(** ** The pagination loop *)






(** Every request of the loop carries the page size as [limit]. *)
Lemma fetch_loop_limit : forall script url headers size c resp,
  Forall (fun q => lookup "limit" (req_params q) = Some (VInt size))
         (try_requests (fetch_loop url headers size c resp script)).
Proof.
  induction script as [| g script IH]; intros url headers size c resp;
    cbn [fetch_loop].
  - constructor; [reflexivity | constructor].
  - destruct g as [cl msg | r]; [constructor; [reflexivity | constructor] |].
    destruct (http_error r); [constructor; [reflexivity | constructor] |].
    destruct (json r) as [data |]; [| constructor; [reflexivity | constructor]].
    destruct (py_get data "data" (VList []));
      [| constructor; [reflexivity | constructor]].
    destruct (py_get data "nextCursor" VNone) as [cursor' |];
      [| constructor; [reflexivity | constructor]].
    destruct (negb (py_truthy cursor'));
      [constructor; [reflexivity | constructor] |].
    cbn [after_batch try_requests]. constructor; [reflexivity | apply IH].
Qed.

(** The [except] clauses catch every exception: one error value, and the
    generator returns. *)
Lemma handlers_catch : forall url t c msg,
  exists m,
    handlers url t c msg
    = mk_run (try_yields t ++ [error_value m])%list (try_requests t) Finished.
Proof.
  intros url t c msg. unfold handlers.
  destruct (is_ValueError c); [eexists; reflexivity |].
  destruct (is_RequestException c); [eexists; reflexivity |].
  unfold is_Exception. eexists; reflexivity.
Qed.



(* ================================================================= *)
(** ** The classifier *)

(** A node without [type] stops the loop with [TypeError], whatever else
    it holds; so does a node without [name] whose type lacks the marker. *)
Lemma node_missing_type_raises : forall kvs acc,
  lookup "type" kvs = None ->
  process_node (VDict kvs) acc = Raise TypeError.
Proof.
  intros kvs acc H. unfold process_node. cbn [py_get bind]. rewrite H.
  reflexivity.
Qed.

Lemma node_missing_name_raises : forall kvs t acc,
  lookup "type" kvs = Some (VStr t) ->
  contains "lmChat" t = false ->
  lookup "name" kvs = None ->
  process_node (VDict kvs) acc = Raise TypeError.
Proof.
  intros kvs t acc Ht Hm Hn. unfold process_node. cbn [py_get bind].
  rewrite Ht, Hn. cbn [py_in bind]. rewrite Hm. reflexivity.
Qed.

(** C1.  The classifier does not survive a node without [type] or without
    [name]: [node.get] yields [None], and the membership test of line 93
    on [None] raises [TypeError].  Both a workflow whose node lacks [type]
    and one whose node lacks [name] make [process_workflows] raise. *)
Theorem node_without_type_or_name_raises :
  process_workflows
    (classifier_input
       [VDict [("id", VStr "w5"); ("name", VStr "Agent flow");
               ("nodes", VList [node_without_type])]])
  = Raise TypeError
  /\ process_workflows
       (classifier_input
          [VDict [("id", VStr "w6"); ("name", VStr "Edit flow");
                  ("nodes", VList [node_without_name])]])
     = Raise TypeError.
Proof.
  split; reflexivity.
Qed.

(** C3, as stated, fails: a workflow whose only node is the OpenRouter
    node has a node whose type contains the marker, and is not in the
    other-model list. *)
Lemma preferred_only_workflow_not_in_other_list :
  contains "lmChat" (Spec.text_field openrouter_node "type") = true
  /\ process_workflows (classifier_input [workflow_openrouter_only])
     = Ok ([Spec.row workflow_openrouter_only], [],
           [Spec.row workflow_openrouter_only]).
Proof.
  split; reflexivity.
Qed.

(** A node of the preferred type does not count as an other-model node
    even when its name has the marker: the workflow is in the preferred
    list and not in the other list. *)
Lemma preferred_node_with_marker_name_is_not_other :
  contains "ChatModel" (Spec.text_field openrouter_node_marker_name "name")
  = true
  /\ exists p a,
      process_workflows
        (classifier_input
           [VDict [("id", VStr "w9");
                   ("nodes", VList [openrouter_node_marker_name])]])
      = Ok ([p], [], [a]).
Proof.
  split; [reflexivity |]. eexists. eexists. reflexivity.
Qed.

(** C3, amended.  The other-model list holds the rows of exactly the
    workflows that have a node for which both hold: its type is not the
    preferred sentinel, and its type contains "lmChat" or its name contains
    "ChatModel".  For a node whose type is not the sentinel a match on the
    name alone is enough; a node whose type is the sentinel never counts,
    whatever its name. *)
Theorem other_list_membership : forall ws,
  forallb well_formed_workflow ws = true ->
  (exists p a,
      process_workflows (classifier_input ws)
      = Ok (p, map Spec.row (filter Spec.has_other_node ws), a))
  /\ forall w,
      Spec.has_other_node w = true <->
      exists n,
        In n (Spec.nodes_of w)
        /\ Spec.text_field n "type" <> openrouter_type
        /\ (occurs_in "lmChat" (Spec.text_field n "type")
            \/ occurs_in "ChatModel" (Spec.text_field n "name")).
Proof.
  intros ws H. split.
  - rewrite process_workflows_rows by exact H. eauto.
  - intros w. unfold Spec.has_other_node. rewrite existsb_exists.
    split; intros [n [Hin Hn]]; exists n; split; try exact Hin.
    + unfold Spec.is_other, Spec.is_preferred in Hn.
      apply andb_true_iff in Hn. destruct Hn as [Hp Hm].
      apply negb_true_iff, String.eqb_neq in Hp. split; [exact Hp |].
      apply orb_true_iff in Hm.
      destruct Hm as [Hm | Hm]; [left | right];
        apply contains_occurs_in; exact Hm.
    + destruct Hn as [Hp Hm]. unfold Spec.is_other, Spec.is_preferred.
      apply andb_true_iff. split.
      * apply negb_true_iff, String.eqb_neq. exact Hp.
      * apply orb_true_iff.
        destruct Hm as [Hm | Hm]; [left | right];
          apply contains_occurs_in; exact Hm.
Qed.

Lemma other_list_membership_witness :
  forallb well_formed_workflow [workflow_both; workflow_openrouter_only] = true
  /\ exists p a,
      process_workflows
        (classifier_input [workflow_both; workflow_openrouter_only])
      = Ok (p,
            map Spec.row
                (filter Spec.has_other_node
                        [workflow_both; workflow_openrouter_only]),
            a).
Proof.
  split; [reflexivity |].
  apply (other_list_membership [workflow_both; workflow_openrouter_only]).
  reflexivity.
Defined.

(** C7.  On workflow records the classifier returns, as its all-list, one
    row per workflow in the order of the input; the preferred list is the
    rows of the workflows with a preferred node and the other list the rows
    of the workflows with an other-model node, each in the order of the
    input.  The two tests are independent of each other. *)
Theorem classifier_lists : forall ws,
  forallb well_formed_workflow ws = true ->
  exists p o a,
    process_workflows (classifier_input ws) = Ok (p, o, a)
    /\ a = map Spec.row ws
    /\ List.length a = List.length ws
    /\ p = map Spec.row (filter Spec.has_preferred_node ws)
    /\ o = map Spec.row (filter Spec.has_other_node ws).
Proof.
  intros ws H.
  exists (map Spec.row (filter Spec.has_preferred_node ws)),
         (map Spec.row (filter Spec.has_other_node ws)),
         (map Spec.row ws).
  rewrite process_workflows_rows by exact H.
  rewrite length_map. auto.
Qed.

Lemma classifier_lists_witness :
  forallb well_formed_workflow [workflow_both; workflow_plain; workflow_empty]
  = true
  /\ exists p o a,
      process_workflows
        (classifier_input [workflow_both; workflow_plain; workflow_empty])
      = Ok (p, o, a)
      /\ a = map Spec.row [workflow_both; workflow_plain; workflow_empty]
      /\ List.length a = 3
      /\ p = [Spec.row workflow_both]
      /\ o = [Spec.row workflow_both].
Proof.
  split; [reflexivity |].
  apply (classifier_lists [workflow_both; workflow_plain; workflow_empty]).
  reflexivity.
Defined.

(** C8, as stated, fails: the [model] parameter of this OpenRouter node is
    present and is a mapping, yet the classifier records nothing for it,
    and the row shows an empty "Model Used" rather than "Dynamic". *)
Lemma empty_mapping_model_not_recorded :
  Spec.model_param openrouter_node_empty_model = Some (VDict [])
  /\ process_node openrouter_node_empty_model node_acc_init
     = Ok (mk_node_acc true false [VStr "OpenRouter Chat Model"] [] [])
  /\ process_workflows
       (classifier_input
          [VDict [("id", VStr "w7"); ("nodes", VList [openrouter_node_empty_model])]])
     = Ok ([VDict [("ID", VStr "w7"); ("Name", VStr "Unnamed Workflow");
                   ("Active", VBool false);
                   ("Chat Model Used", VStr "OpenRouter Chat Model");
                   ("Key", VStr "None"); ("Model Used", VStr EmptyString)]],
           [],
           [VDict [("ID", VStr "w7"); ("Name", VStr "Unnamed Workflow");
                   ("Active", VBool false);
                   ("Chat Model Used", VStr "OpenRouter Chat Model");
                   ("Key", VStr "None"); ("Model Used", VStr EmptyString)]]).
Proof.
  repeat split; reflexivity.
Qed.

(** C8, amended.  One iteration of the node loop leaves the model collector
    alone unless the type of the node is exactly the preferred sentinel.
    For such a node it looks at the [model] parameter: absent, or present
    with a false truth value (null, false, zero, an empty string, list or
    mapping), it adds nothing; a mapping that is not empty adds "Dynamic";
    any other value adds its string form. *)
Theorem model_collector_step : forall n acc,
  well_formed_node n = true ->
  exists acc',
    process_node n acc = Ok acc'
    /\ (Spec.text_field n "type" <> openrouter_type ->
        models acc' = models acc)
    /\ (Spec.text_field n "type" = openrouter_type ->
        match Spec.model_param n with
        | None => models acc' = models acc
        | Some v =>
            if py_truthy v then
              if is_dict v then models acc' = (models acc ++ [VStr "Dynamic"])%list
              else models acc' = (models acc ++ [VStr (py_str v)])%list
            else models acc' = models acc
        end).
Proof.
  intros n acc H. eexists. split.
  - apply process_node_well_formed. exact H.
  - cbn [models]. unfold Spec.is_preferred, Spec.model_entry. split; intros Ht.
    + apply String.eqb_neq in Ht. rewrite Ht. apply app_nil_r.
    + rewrite Ht, String.eqb_refl.
      destruct (Spec.model_param n) as [v |]; [| apply app_nil_r].
      destruct (py_truthy v); [| apply app_nil_r].
      destruct (is_dict v); reflexivity.
Qed.

Lemma model_collector_step_witness :
  well_formed_node openrouter_node = true
  /\ exists acc',
      process_node openrouter_node node_acc_init = Ok acc'
      /\ (Spec.text_field openrouter_node "type" <> openrouter_type ->
          models acc' = [])
      /\ (Spec.text_field openrouter_node "type" = openrouter_type ->
          models acc' = [VStr "gpt-4"]).
Proof.
  split; [reflexivity |].
  apply (model_collector_step openrouter_node node_acc_init). reflexivity.
Defined.

(** C9.  In the row of every workflow the chat-model names, the key names
    and the model names are joined with ", "; an empty list of chat-model
    names or of key names shows as "None", an empty list of model names as
    the empty string.  A workflow without nodes is in the all-list only,
    with "None", "None" and the empty string. *)
Theorem row_display_fields : forall ws,
  forallb well_formed_workflow ws = true ->
  exists p o a,
    process_workflows (classifier_input ws) = Ok (p, o, a)
    /\ (forall i w,
           nth_error ws i = Some w ->
           exists r,
             nth_error a i = Some (VDict r)
             /\ lookup "Chat Model Used" r
                = Some (VStr (match Spec.chat_model_names w with
                              | [] => "None"
                              | _ :: _ => join ", " (Spec.chat_model_names w)
                              end))
             /\ lookup "Key" r
                = Some (VStr (match Spec.key_names w with
                              | [] => "None"
                              | _ :: _ => join ", " (Spec.key_names w)
                              end))
             /\ lookup "Model Used" r
                = Some (VStr (match Spec.model_names w with
                              | [] => EmptyString
                              | _ :: _ => join ", " (Spec.model_names w)
                              end)))
    /\ (forall w,
           ws = [w] -> Spec.nodes_of w = [] ->
           p = [] /\ o = []
           /\ exists r,
               a = [VDict r]
               /\ lookup "Chat Model Used" r = Some (VStr "None")
               /\ lookup "Key" r = Some (VStr "None")
               /\ lookup "Model Used" r = Some (VStr EmptyString)).
Proof.
  intros ws H.
  exists (map Spec.row (filter Spec.has_preferred_node ws)),
         (map Spec.row (filter Spec.has_other_node ws)),
         (map Spec.row ws).
  split; [apply process_workflows_rows; exact H |]. split.
  - intros i w Hi. eexists. split.
    + rewrite nth_error_map, Hi. reflexivity.
    + unfold Spec.display. repeat split.
  - intros w -> Hn. cbn [filter map].
    unfold Spec.has_preferred_node, Spec.has_other_node. rewrite Hn.
    cbn [existsb]. repeat split. eexists. split; [reflexivity |].
    unfold Spec.chat_model_names, Spec.key_names, Spec.model_names.
    rewrite Hn. repeat split.
Qed.

Lemma row_display_fields_witness :
  forallb well_formed_workflow [workflow_empty] = true
  /\ exists p o a,
      process_workflows (classifier_input [workflow_empty]) = Ok (p, o, a)
      /\ p = [] /\ o = []
      /\ exists r,
          a = [VDict r]
          /\ lookup "Chat Model Used" r = Some (VStr "None")
          /\ lookup "Key" r = Some (VStr "None")
          /\ lookup "Model Used" r = Some (VStr EmptyString).
Proof.
  split; [reflexivity |].
  destruct (row_display_fields [workflow_empty] eq_refl)
    as [p [o [a [Hrun [_ Hempty]]]]].
  exists p, o, a. split; [exact Hrun |].
  destruct (Hempty workflow_empty eq_refl eq_refl) as [Hp [Ho Hr]].
  auto.
Defined.

(** C10.  A top-level mapping with the key "error" gives three empty lists,
    whatever else it holds; so does the error value of the fetcher. *)
Theorem error_mapping_gives_empty_lists : forall kvs v,
  lookup "error" kvs = Some v ->
  process_workflows (VDict kvs) = Ok ([], [], [])
  /\ forall msg, process_workflows (error_value msg) = Ok ([], [], []).
Proof.
  intros kvs v H. split.
  - unfold process_workflows. cbn [py_in]. rewrite H. reflexivity.
  - intros msg. reflexivity.
Qed.

Lemma error_mapping_gives_empty_lists_witness :
  lookup "error" [("error", VStr "Request failed: timed out"); ("data", VInt 7)]
  = Some (VStr "Request failed: timed out")
  /\ process_workflows
       (VDict [("error", VStr "Request failed: timed out"); ("data", VInt 7)])
     = Ok ([], [], []).
Proof.
  split; [reflexivity |].
  apply (error_mapping_gives_empty_lists
           [("error", VStr "Request failed: timed out"); ("data", VInt 7)]
           (VStr "Request failed: timed out")).
  reflexivity.
Defined.

(* ================================================================= *)
(** ** The fetcher *)

(** C2.  The function has no page-size parameter.  The call that [app.py]
    makes, with [batch_size] as a third keyword, raises [TypeError] before
    anything is fetched; and in a call that the signature accepts, every
    request carries as [limit] the page size of the environment
    ([N8N_BATCH_SIZE], else 20), which no argument can change. *)
Theorem batch_size_is_not_a_parameter : forall env url key n script,
  call_fetch_workflows_generator env
    [("api_url", url); ("api_key", key); ("batch_size", VInt n)] script
  = CallRaises TypeError
      "fetch_workflows_generator() got an unexpected keyword argument 'batch_size'"
  /\ Forall (fun q => lookup "limit" (req_params q)
                      = option_map VInt (configured_batch_size env))
            (requests (fetch_workflows_generator env url key script)).
Proof.
  intros env url key n script. split; [reflexivity |].
  unfold fetch_workflows_generator.
  destruct (resolve env url key) as [url' key'].
  destruct (negb (py_truthy key')); [constructor |].
  destruct (negb (py_truthy url')); [constructor |].
  cbv zeta.
  assert (Hreq : Forall (fun q => lookup "limit" (req_params q)
                                  = option_map VInt (configured_batch_size env))
                        (try_requests
                           (try_body env url' [("X-N8N-API-KEY", key')] script))).
  { unfold try_body, configured_batch_size, getenv.
    destruct (env "N8N_BATCH_SIZE") as [s |].
    - destruct (int_of_string s) as [z |]; [apply fetch_loop_limit | constructor].
    - apply fetch_loop_limit. }
  destruct (try_ending (try_body env url' [("X-N8N-API-KEY", key')] script))
    as [| c msg |]; try exact Hreq.
  destruct (handlers_catch url'
              (try_body env url' [("X-N8N-API-KEY", key')] script) c msg)
    as [m ->].
  exact Hreq.
Qed.

(** C5.  When the key, or the endpoint, is neither given nor in the
    environment, the generator yields one error value and returns, without
    a request. *)
Theorem unresolved_configuration_yields_one_error :
  forall env api_url api_key script,
    unresolved env api_key "N8N_API_KEY" = true
    \/ unresolved env api_url "N8N_BASE_URL" = true ->
    exists msg,
      fetch_workflows_generator env api_url api_key script
      = mk_run [error_value msg] [] Finished.
Proof.
  intros env api_url api_key script H.
  unfold fetch_workflows_generator, resolve.
  destruct (py_truthy api_key) eqn:Hkey; cbn [negb].
  - destruct H as [H | H]; [unfold unresolved in H; rewrite Hkey in H;
                            discriminate |].
    unfold unresolved in H. apply andb_true_iff in H. destruct H as [Hu Hb].
    apply negb_true_iff in Hu, Hb. rewrite Hu, Hb. cbn [negb].
    rewrite Hkey, Hu. cbn [negb]. eexists; reflexivity.
  - destruct (py_truthy (getenv env "N8N_API_KEY" VNone)) eqn:Hk;
      cbn [negb]; [| destruct (negb (py_truthy api_url));
                      [destruct (py_truthy (getenv env "N8N_BASE_URL" VNone)) |];
                      eexists; reflexivity].
    destruct H as [H | H]; [unfold unresolved in H; rewrite Hkey, Hk in H;
                            discriminate |].
    unfold unresolved in H. apply andb_true_iff in H. destruct H as [Hu Hb].
    apply negb_true_iff in Hu, Hb. rewrite Hu, Hb. cbn [negb].
    rewrite Hu. cbn [negb]. eexists; reflexivity.
Qed.

Lemma unresolved_configuration_yields_one_error_witness :
  (unresolved sample_environ VNone "N8N_API_KEY" = true
   \/ unresolved sample_environ sample_url "N8N_BASE_URL" = true)
  /\ exists msg,
      fetch_workflows_generator sample_environ sample_url VNone
                                [first_page; second_page]
      = mk_run [error_value msg] [] Finished.
Proof.
  split; [left; reflexivity |].
  apply (unresolved_configuration_yields_one_error
           sample_environ sample_url VNone [first_page; second_page]).
  left; reflexivity.
Defined.










(* ================================================================= *)
(** ** More on the fetcher *)

(** The requests of a run are none, or those of the loop started with the
    resolved endpoint and key and the configured page size. *)
Lemma requests_of_fetcher : forall env api_url api_key script,
  requests (fetch_workflows_generator env api_url api_key script) = []
  \/ exists size,
      requests (fetch_workflows_generator env api_url api_key script)
      = try_requests
          (fetch_loop (fst (resolve env api_url api_key))
             [("X-N8N-API-KEY", snd (resolve env api_url api_key))]
             size VNone None script).
Proof.
  intros env api_url api_key script. unfold fetch_workflows_generator.
  destruct (resolve env api_url api_key) as [url key]. cbn [fst snd].
  destruct (negb (py_truthy key)); [left; reflexivity |].
  destruct (negb (py_truthy url)); [left; reflexivity |].
  cbv zeta.
  assert (Hreq : try_requests (try_body env url [("X-N8N-API-KEY", key)] script)
                 = []
                 \/ exists size,
                     try_requests
                       (try_body env url [("X-N8N-API-KEY", key)] script)
                     = try_requests
                         (fetch_loop url [("X-N8N-API-KEY", key)] size
                                     VNone None script)).
  { unfold try_body, getenv. destruct (env "N8N_BATCH_SIZE") as [s |].
    - destruct (int_of_string s) as [z |]; [right; exists z |left]; reflexivity.
    - right. exists 20%Z. reflexivity. }
  destruct (try_ending (try_body env url [("X-N8N-API-KEY", key)] script))
    as [| c msg |]; try exact Hreq.
  destruct (handlers_catch url
              (try_body env url [("X-N8N-API-KEY", key)] script) c msg)
    as [m ->].
  exact Hreq.
Qed.

(** Every request of the loop goes to the same endpoint with the same
    header. *)
Lemma fetch_loop_target : forall script url headers size c resp,
  Forall (fun q => req_url q = url /\ req_headers q = headers)
         (try_requests (fetch_loop url headers size c resp script)).
Proof.
  induction script as [| g script IH]; intros url headers size c resp;
    cbn [fetch_loop].
  - constructor; [split; reflexivity | constructor].
  - destruct g as [cl msg | r];
      [constructor; [split; reflexivity | constructor] |].
    destruct (http_error r);
      [constructor; [split; reflexivity | constructor] |].
    destruct (json r) as [data |];
      [| constructor; [split; reflexivity | constructor]].
    destruct (py_get data "data" (VList []));
      [| constructor; [split; reflexivity | constructor]].
    destruct (py_get data "nextCursor" VNone) as [cursor' |];
      [| constructor; [split; reflexivity | constructor]].
    destruct (negb (py_truthy cursor'));
      [constructor; [split; reflexivity | constructor] |].
    cbn [after_batch try_requests].
    constructor; [split; reflexivity | apply IH].
Qed.

Lemma requests_target : forall env api_url api_key script,
  Forall (fun q => req_url q = fst (resolve env api_url api_key)
                   /\ req_headers q
                      = [("X-N8N-API-KEY", snd (resolve env api_url api_key))])
         (requests (fetch_workflows_generator env api_url api_key script)).
Proof.
  intros env api_url api_key script.
  destruct (requests_of_fetcher env api_url api_key script) as [-> | [size ->]].
  - constructor.
  - apply fetch_loop_target.
Qed.



(** X2.  Without arguments the generator takes both from the environment:
    the key is [N8N_API_KEY] and the endpoint is [N8N_BASE_URL] followed by
    "/api/v1/workflows". *)
Theorem environment_fallback : forall env api_url api_key base key script,
  py_truthy api_url = false ->
  py_truthy api_key = false ->
  env "N8N_BASE_URL" = Some base ->
  base <> EmptyString ->
  env "N8N_API_KEY" = Some key ->
  Forall (fun q => req_url q = VStr (base ++ "/api/v1/workflows")
                   /\ req_headers q = [("X-N8N-API-KEY", VStr key)])
         (requests (fetch_workflows_generator env api_url api_key script)).
Proof.
  intros env api_url api_key base key script Hurl Hkey Hbase Hne Henv.
  assert (Hres : resolve env api_url api_key
                 = (VStr (base ++ "/api/v1/workflows"), VStr key)).
  { unfold resolve, getenv. rewrite Hurl, Hkey, Hbase, Henv. cbn [negb py_truthy].
    apply String.eqb_neq in Hne. rewrite Hne. reflexivity. }
  generalize (requests_target env api_url api_key script).
  rewrite Hres. cbn [fst snd]. exact (fun H => H).
Qed.

Lemma environment_fallback_witness :
  Forall (fun q => req_url q = VStr "https://n8n.example.com/api/v1/workflows"
                   /\ req_headers q
                      = [("X-N8N-API-KEY", VStr "n8n_api_secret")])
         (requests
            (fetch_workflows_generator configured_environ VNone VNone
               [first_page; second_page])).
Proof.
  apply (environment_fallback configured_environ VNone VNone
           "https://n8n.example.com" "n8n_api_secret"
           [first_page; second_page]);
    try reflexivity.
  discriminate.
Defined.

(** X3.  The two configuration errors have fixed messages, and the key is
    looked at first: with the key unresolved the message is the one about
    the key even when the endpoint is missing too; the message about the
    endpoint needs a resolved key. *)
Theorem configuration_error_messages : forall env api_url api_key script,
  (unresolved env api_key "N8N_API_KEY" = true ->
   fetch_workflows_generator env api_url api_key script
   = mk_run
       [error_value "API key not found. Please set N8N_API_KEY in .env file."]
       [] Finished)
  /\ (unresolved env api_key "N8N_API_KEY" = false ->
      unresolved env api_url "N8N_BASE_URL" = true ->
      fetch_workflows_generator env api_url api_key script
      = mk_run
          [error_value
             "API URL not found. Please set N8N_BASE_URL in .env file or pass api_url."]
          [] Finished).
Proof.
  intros env api_url api_key script.
  unfold unresolved, fetch_workflows_generator, resolve. split.
  - intros H. apply andb_true_iff in H. destruct H as [Ha Hb].
    apply negb_true_iff in Ha, Hb. rewrite Ha. cbn [negb]. rewrite Hb.
    destruct (negb (py_truthy api_url));
      [destruct (py_truthy (getenv env "N8N_BASE_URL" VNone)) |];
      reflexivity.
  - intros Hk Hu. apply andb_true_iff in Hu. destruct Hu as [Ha Hb].
    apply negb_true_iff in Ha, Hb. rewrite Ha. cbn [negb]. rewrite Hb.
    destruct (py_truthy api_key) eqn:Hkey; cbn [negb].
    + rewrite Hkey, Ha. reflexivity.
    + cbn [negb andb] in Hk. apply negb_false_iff in Hk. rewrite Hk, Ha.
      reflexivity.
Qed.

Lemma configuration_error_messages_witness :
  fetch_workflows_generator sample_environ VNone VNone [first_page]
  = mk_run
      [error_value "API key not found. Please set N8N_API_KEY in .env file."]
      [] Finished
  /\ fetch_workflows_generator sample_environ VNone sample_key [first_page]
     = mk_run
         [error_value
            "API URL not found. Please set N8N_BASE_URL in .env file or pass api_url."]
         [] Finished.
Proof.
  split.
  - apply (configuration_error_messages sample_environ VNone VNone [first_page]).
    reflexivity.
  - apply (configuration_error_messages sample_environ VNone sample_key
             [first_page]); reflexivity.
Defined.

(** X4.  A page size in the environment that [int] does not accept ends the
    run before any request, with one error value whose text is that of a
    decoding failure without a response. *)
Theorem invalid_batch_size_yields_one_error :
  forall env api_url api_key url key script,
    resolve env api_url api_key = (url, key) ->
    py_truthy key = true ->
    py_truthy url = true ->
    configured_batch_size env = None ->
    fetch_workflows_generator env api_url api_key script
    = mk_run
        [error_value
           ("Failed to decode JSON. Status: Unknown, URL: " ++ py_str url
              ++ ", Content: No response content...")]
        [] Finished.
Proof.
  intros env api_url api_key url key script Hres Hkey Hurl Hsize.
  unfold fetch_workflows_generator. rewrite Hres, Hkey, Hurl. cbn [negb].
  unfold configured_batch_size in Hsize. unfold try_body, getenv.
  destruct (env "N8N_BATCH_SIZE") as [s |]; [| discriminate].
  rewrite Hsize. reflexivity.
Qed.

Lemma invalid_batch_size_yields_one_error_witness :
  fetch_workflows_generator misconfigured_environ sample_url sample_key
    [first_page; second_page]
  = mk_run
      [error_value
         "Failed to decode JSON. Status: Unknown, URL: https://n8n.example.com/api/v1/workflows, Content: No response content..."]
      [] Finished.
Proof.
  apply (invalid_batch_size_yields_one_error misconfigured_environ
           sample_url sample_key sample_url sample_key
           [first_page; second_page]);
    reflexivity.
Defined.








(** The loop yields the data of a prefix of the answers; it has made one
    request per batch when it breaks, and one more otherwise. *)
Lemma fetch_loop_shape : forall script url headers size c resp,
  exists k,
    k <= List.length script
    /\ try_yields (fetch_loop url headers size c resp script)
       = map page_data (firstn k script)
    /\ List.length (try_requests (fetch_loop url headers size c resp script))
       = match try_ending (fetch_loop url headers size c resp script) with
         | Break => k
         | _ => S k
         end.
Proof.
  induction script as [| g script IH]; intros url headers size c resp.
  - exists 0. cbn. repeat split; lia.
  - destruct g as [cl msg | r].
    + exists 0. cbn. repeat split; lia.
    + cbn [fetch_loop].
      destruct (http_error r) as [m |] eqn:He;
        [exists 0; cbn; repeat split; lia |].
      destruct (json r) as [data |] eqn:Hj;
        [| exists 0; cbn; repeat split; lia].
      destruct data as [| b | z | s | l | kvs];
        try (exists 0; cbn; repeat split; lia).
      cbn [py_get].
      assert (Hd : match lookup "data" kvs with
                   | Some v => v
                   | None => VList []
                   end = page_data (GetReturns r)).
      { unfold page_data, body_of. rewrite He, Hj. reflexivity. }
      rewrite Hd.
      destruct (negb (py_truthy match lookup "nextCursor" kvs with
                                | Some v => v
                                | None => VNone
                                end)).
      * exists 1. cbn [try_yields try_requests try_ending firstn map List.length].
        repeat split; lia.
      * destruct (IH url headers size
                     match lookup "nextCursor" kvs with
                     | Some v => v
                     | None => VNone
                     end (Some r)) as [k [Hk [Hy Hq]]].
        exists (S k).
        cbn [after_batch try_yields try_requests try_ending firstn map List.length].
        rewrite Hy, Hq. repeat split; [lia |].
        destruct (try_ending _); reflexivity.
Qed.

(** X8.  Whatever the server answers, the values yielded are the data of
    the first answers, in order, followed by at most one error value, which
    is then the last value and ends the run; and the generator has made at
    most one request more than it has yielded batches. *)
Theorem yields_are_batches_then_at_most_one_error :
  forall env api_url api_key script,
  exists k,
    k <= List.length script
    /\ ((yields (fetch_workflows_generator env api_url api_key script)
         = map page_data (firstn k script)
         /\ (ending_of (fetch_workflows_generator env api_url api_key script)
             = Finished
             /\ List.length
                  (requests (fetch_workflows_generator env api_url api_key script))
                = k
             \/ ending_of (fetch_workflows_generator env api_url api_key script)
                = Waiting
                /\ List.length
                     (requests
                        (fetch_workflows_generator env api_url api_key script))
                   = S k))
        \/ exists m,
            yields (fetch_workflows_generator env api_url api_key script)
            = (map page_data (firstn k script) ++ [error_value m])%list
            /\ ending_of (fetch_workflows_generator env api_url api_key script)
               = Finished
            /\ List.length
                 (requests (fetch_workflows_generator env api_url api_key script))
               <= S k).
Proof.
  intros env api_url api_key script. unfold fetch_workflows_generator.
  destruct (resolve env api_url api_key) as [url key].
  destruct (negb (py_truthy key)).
  { exists 0. split; [lia |]. right. eexists. cbn. repeat split. lia. }
  destruct (negb (py_truthy url)).
  { exists 0. split; [lia |]. right. eexists. cbn. repeat split. lia. }
  cbv zeta.
  assert (Hbody :
            (try_yields (try_body env url [("X-N8N-API-KEY", key)] script) = []
             /\ try_requests (try_body env url [("X-N8N-API-KEY", key)] script) = []
             /\ exists c msg,
                 try_ending (try_body env url [("X-N8N-API-KEY", key)] script)
                 = Thrown c msg)
            \/ exists size,
                try_body env url [("X-N8N-API-KEY", key)] script
                = fetch_loop url [("X-N8N-API-KEY", key)] size VNone None script).
  { unfold try_body, getenv. destruct (env "N8N_BATCH_SIZE") as [s |].
    - destruct (int_of_string s) as [z |]; [right; exists z; reflexivity |].
      left. cbn. repeat split. eauto.
    - right. exists 20%Z. reflexivity. }
  destruct Hbody as [[Hy [Hq [c [msg He]]]] | [size ->]].
  - exists 0. split; [lia |]. right. rewrite He.
    destruct (handlers_catch url
                (try_body env url [("X-N8N-API-KEY", key)] script) c msg)
      as [m ->].
    exists m. cbn [yields requests ending_of]. rewrite Hy, Hq. cbn.
    repeat split. lia.
  - destruct (fetch_loop_shape script url [("X-N8N-API-KEY", key)] size
                               VNone None) as [k [Hk [Hy Hq]]].
    exists k. split; [exact Hk |].
    destruct (try_ending
                (fetch_loop url [("X-N8N-API-KEY", key)] size VNone None script))
      as [| c msg |] eqn:He.
    + left. cbn [yields requests ending_of]. auto.
    + right.
      destruct (handlers_catch url
                  (fetch_loop url [("X-N8N-API-KEY", key)] size VNone None script)
                  c msg) as [m ->].
      exists m. cbn [yields requests ending_of]. rewrite Hy, Hq.
      repeat split. lia.
    + left. cbn [yields requests ending_of]. auto.
Qed.

(* ================================================================= *)
(** ** More on the classifier *)

(** X9.  The classifier reads only the keys "error" and "data" of its
    argument: a mapping without "error" is classified as the list under
    "data" whatever other keys it has (the decoded body of a page, with its
    "nextCursor", can be passed as it is), and without "data" the three
    lists are empty. *)
Theorem only_data_is_read : forall kvs,
  lookup "error" kvs = None ->
  (forall ws,
      lookup "data" kvs = Some (VList ws) ->
      process_workflows (VDict kvs) = process_workflows (classifier_input ws))
  /\ (lookup "data" kvs = None ->
      process_workflows (VDict kvs) = Ok ([], [], [])).
Proof.
  intros kvs He. unfold process_workflows. cbn [py_in py_get]. rewrite He.
  cbn [bind]. split.
  - intros ws Hd. rewrite Hd. reflexivity.
  - intros Hd. rewrite Hd. reflexivity.
Qed.

Lemma only_data_is_read_witness :
  process_workflows (VDict page_body)
  = process_workflows (classifier_input [workflow_both; workflow_plain])
  /\ process_workflows (VDict [("nextCursor", VStr "eyJsYXN0SWQiOiJ3MiJ9")])
     = Ok ([], [], []).
Proof.
  split.
  - apply (only_data_is_read page_body); reflexivity.
  - apply (only_data_is_read [("nextCursor", VStr "eyJsYXN0SWQiOiJ3MiJ9")]);
      reflexivity.
Defined.

Lemma for_each_app : forall (A S : Type) (body : A -> S -> result S) xs ys acc,
  for_each body (xs ++ ys)%list acc
  = (acc' <- for_each body xs acc ;; for_each body ys acc').
Proof.
  intros A S body xs. induction xs as [| x xs IH]; intros ys acc; cbn.
  - reflexivity.
  - destruct (body x acc) as [acc' | e]; cbn; [apply IH | reflexivity].
Qed.

(** An iteration of the workflow loop only appends to the three lists. *)
Lemma process_workflow_appends : forall w p o a,
  process_workflow w (p, o, a)
  = match process_workflow w ([], [], []) with
    | Ok (p', o', a') => Ok ((p ++ p')%list, (o ++ o')%list, (a ++ a')%list)
    | Raise e => Raise e
    end.
Proof.
  intros w p o a. unfold process_workflow.
  destruct (py_get w "name" (VStr "Unnamed Workflow")); cbn [bind]; [| reflexivity].
  destruct (py_get w "id" VNone); cbn [bind]; [| reflexivity].
  destruct (py_get w "nodes" (VList [])) as [nodes |]; cbn [bind]; [| reflexivity].
  destruct (py_iter nodes) as [items |]; cbn [bind]; [| reflexivity].
  destruct (for_each process_node items node_acc_init) as [acc |];
    cbn [bind]; [| reflexivity].
  destruct (py_get w "active" (VBool false)); cbn [bind]; [| reflexivity].
  destruct (join_or "None" (chat_models acc)); cbn [bind]; [| reflexivity].
  destruct (join_or "None" (keys acc)); cbn [bind]; [| reflexivity].
  destruct (join_or EmptyString (models acc)); cbn [bind]; [| reflexivity].
  destruct (has_openrouter acc), (has_other_model acc);
    cbn [app]; rewrite ?app_nil_r; reflexivity.
Qed.

Lemma for_each_process_workflow_appends : forall ws p o a,
  for_each process_workflow ws (p, o, a)
  = match for_each process_workflow ws ([], [], []) with
    | Ok (p', o', a') => Ok ((p ++ p')%list, (o ++ o')%list, (a ++ a')%list)
    | Raise e => Raise e
    end.
Proof.
  induction ws as [| w ws IH]; intros p o a; cbn [for_each].
  - rewrite !app_nil_r. reflexivity.
  - rewrite process_workflow_appends.
    destruct (process_workflow w ([], [], [])) as [[[p1 o1] a1] | e];
      cbn [bind]; [| reflexivity].
    rewrite (IH (p ++ p1)%list (o ++ o1)%list (a ++ a1)%list).
    rewrite (IH p1 o1 a1).
    destruct (for_each process_workflow ws ([], [], []))
      as [[[p2 o2] a2] | e]; [| reflexivity].
    rewrite !app_assoc. reflexivity.
Qed.

(** X10.  Classification goes workflow by workflow: the lists for a
    concatenation are the concatenations of the lists for its two parts,
    for any input; and when the first part raises, the whole raises the
    same exception, whatever follows. *)
Theorem classification_of_concatenation : forall ws1 ws2,
  process_workflows (classifier_input (ws1 ++ ws2)%list)
  = match process_workflows (classifier_input ws1) with
    | Raise e => Raise e
    | Ok (p1, o1, a1) =>
        match process_workflows (classifier_input ws2) with
        | Raise e => Raise e
        | Ok (p2, o2, a2) =>
            Ok ((p1 ++ p2)%list, (o1 ++ o2)%list, (a1 ++ a2)%list)
        end
    end.
Proof.
  intros ws1 ws2. unfold process_workflows, classifier_input.
  cbn [py_in lookup String.eqb Ascii.eqb Bool.eqb bind py_get py_iter].
  rewrite for_each_app.
  destruct (for_each process_workflow ws1 ([], [], []))
    as [[[p1 o1] a1] | e]; cbn [bind]; [| reflexivity].
  apply for_each_process_workflow_appends.
Qed.

(** What one iteration of the workflow loop adds when it returns: one row
    to the all-list, and that row or nothing to each of the other lists. *)
Lemma process_workflow_step : forall w p o a p' o' a',
  process_workflow w (p, o, a) = Ok (p', o', a') ->
  exists r dp do,
    a' = (a ++ [r])%list /\ p' = (p ++ dp)%list /\ o' = (o ++ do)%list
    /\ (dp = [] \/ dp = [r]) /\ (do = [] \/ do = [r]).
Proof.
  intros w p o a p' o' a'. unfold process_workflow.
  destruct (py_get w "name" (VStr "Unnamed Workflow")); cbn [bind];
    [| discriminate].
  destruct (py_get w "id" VNone); cbn [bind]; [| discriminate].
  destruct (py_get w "nodes" (VList [])) as [nodes |]; cbn [bind];
    [| discriminate].
  destruct (py_iter nodes) as [items |]; cbn [bind]; [| discriminate].
  destruct (for_each process_node items node_acc_init) as [acc |];
    cbn [bind]; [| discriminate].
  destruct (py_get w "active" (VBool false)); cbn [bind]; [| discriminate].
  destruct (join_or "None" (chat_models acc)); cbn [bind]; [| discriminate].
  destruct (join_or "None" (keys acc)); cbn [bind]; [| discriminate].
  destruct (join_or EmptyString (models acc)); cbn [bind]; [| discriminate].
  intros H. injection H as <- <- <-.
  match goal with
  | |- exists r _ _, (_ ++ [?x])%list = _ /\ _ =>
      exists x, (if has_openrouter acc then [x] else []),
             (if has_other_model acc then [x] else [])
  end.
  split; [reflexivity |].
  destruct (has_openrouter acc), (has_other_model acc);
    rewrite ?app_nil_r; auto.
Qed.

Lemma for_each_process_workflow_counts : forall ws p o a p' o' a',
  for_each process_workflow ws (p, o, a) = Ok (p', o', a') ->
  exists dp do da,
    p' = (p ++ dp)%list /\ o' = (o ++ do)%list /\ a' = (a ++ da)%list
    /\ List.length da = List.length ws
    /\ List.length dp <= List.length da
    /\ List.length do <= List.length da
    /\ incl dp da /\ incl do da.
Proof.
  induction ws as [| w ws IH]; intros p o a p' o' a' H; cbn [for_each] in H.
  - injection H as <- <- <-. exists [], [], [].
    rewrite !app_nil_r. repeat split; auto using incl_nil_l.
  - destruct (process_workflow w (p, o, a)) as [[[p1 o1] a1] | e] eqn:Hw;
      cbn [bind] in H; [| discriminate].
    destruct (process_workflow_step w p o a p1 o1 a1 Hw)
      as [r [dp1 [do1 [-> [-> [-> [Hp Ho]]]]]]].
    destruct (IH _ _ _ _ _ _ H)
      as [dp [do [da [-> [-> [-> [Hl [Hlp [Hlo [Hip Hio]]]]]]]]]].
    exists (dp1 ++ dp)%list, (do1 ++ do)%list, (r :: da).
    rewrite <- !app_assoc. cbn [app List.length].
    repeat split; try reflexivity.
    + lia.
    + rewrite length_app. destruct Hp as [-> | ->]; cbn; lia.
    + rewrite length_app. destruct Ho as [-> | ->]; cbn; lia.
    + destruct Hp as [-> | ->]; cbn [app].
      * apply incl_tl. exact Hip.
      * apply incl_cons; [left; reflexivity | apply incl_tl; exact Hip].
    + destruct Ho as [-> | ->]; cbn [app].
      * apply incl_tl. exact Hio.
      * apply incl_cons; [left; reflexivity | apply incl_tl; exact Hio].
Qed.

(** X11.  Whenever the classifier returns, on any input, the all-list has
    one row per item of the input, and the preferred list and the other
    list are each no longer than the all-list and hold only rows of the
    all-list.  The counts that the dashboard shows can therefore not
    exceed the total. *)
Theorem lists_are_bounded_by_all : forall ws p o a,
  process_workflows (classifier_input ws) = Ok (p, o, a) ->
  List.length a = List.length ws
  /\ List.length p <= List.length a
  /\ List.length o <= List.length a
  /\ incl p a /\ incl o a.
Proof.
  intros ws p o a. unfold process_workflows, classifier_input.
  cbn [py_in lookup String.eqb Ascii.eqb Bool.eqb bind py_get py_iter].
  intros H.
  destruct (for_each_process_workflow_counts _ _ _ _ _ _ _ H)
    as [dp [do [da [-> [-> [-> [Hl [Hlp [Hlo [Hip Hio]]]]]]]]]].
  cbn [app]. auto.
Qed.

Lemma lists_are_bounded_by_all_witness :
  List.length [Spec.row workflow_both; Spec.row workflow_plain] = 2
  /\ List.length [Spec.row workflow_both] <= 2
  /\ incl [Spec.row workflow_both]
          [Spec.row workflow_both; Spec.row workflow_plain].
Proof.
  destruct (lists_are_bounded_by_all [workflow_both; workflow_plain]
              [Spec.row workflow_both] [Spec.row workflow_both]
              [Spec.row workflow_both; Spec.row workflow_plain] eq_refl)
    as [Hl [Hp [_ [Hi _]]]].
  auto.
Defined.

(** X12.  On workflow records the preferred list holds the rows of exactly
    the workflows that have a node whose type is the OpenRouter node type,
    in the order of the input; the name of the node plays no part. *)
Theorem preferred_list_membership : forall ws,
  forallb well_formed_workflow ws = true ->
  (exists o a,
      process_workflows (classifier_input ws)
      = Ok (map Spec.row (filter Spec.has_preferred_node ws), o, a))
  /\ forall w,
      Spec.has_preferred_node w = true <->
      exists n,
        In n (Spec.nodes_of w) /\ Spec.text_field n "type" = openrouter_type.
Proof.
  intros ws H. split.
  - rewrite process_workflows_rows by exact H. eauto.
  - intros w. unfold Spec.has_preferred_node. rewrite existsb_exists.
    split; intros [n [Hin Hn]]; exists n; split; try exact Hin.
    + apply String.eqb_eq. exact Hn.
    + apply String.eqb_eq. exact Hn.
Qed.

Lemma preferred_list_membership_witness :
  exists o a,
    process_workflows
      (classifier_input [workflow_plain; workflow_openrouter_only])
    = Ok ([Spec.row workflow_openrouter_only], o, a).
Proof.
  apply (preferred_list_membership [workflow_plain; workflow_openrouter_only]).
  reflexivity.
Defined.

(** X13.  The row of a workflow record has the six keys "ID", "Name",
    "Active", "Chat Model Used", "Key", "Model Used" in this order; "ID" is
    the [id] of the workflow or [None], "Name" its [name] or "Unnamed
    Workflow", "Active" its [active] or [False]. *)
Theorem row_identity_fields : forall ws,
  forallb well_formed_workflow ws = true ->
  exists p o a,
    process_workflows (classifier_input ws) = Ok (p, o, a)
    /\ forall i kvs,
        nth_error ws i = Some (VDict kvs) ->
        exists r,
          nth_error a i = Some (VDict r)
          /\ map fst r
             = ["ID"; "Name"; "Active"; "Chat Model Used"; "Key"; "Model Used"]
          /\ lookup "ID" r
             = Some (match lookup "id" kvs with
                     | Some v => v
                     | None => VNone
                     end)
          /\ lookup "Name" r
             = Some (match lookup "name" kvs with
                     | Some v => v
                     | None => VStr "Unnamed Workflow"
                     end)
          /\ lookup "Active" r
             = Some (match lookup "active" kvs with
                     | Some v => v
                     | None => VBool false
                     end).
Proof.
  intros ws H.
  exists (map Spec.row (filter Spec.has_preferred_node ws)),
         (map Spec.row (filter Spec.has_other_node ws)),
         (map Spec.row ws).
  split; [apply process_workflows_rows; exact H |].
  intros i kvs Hi. eexists. split.
  - rewrite nth_error_map, Hi. reflexivity.
  - repeat split.
Qed.

Lemma row_identity_fields_witness :
  exists p o a,
    process_workflows (classifier_input [VDict [("nodes", VList [set_node])]])
    = Ok (p, o, a)
    /\ exists r,
        nth_error a 0 = Some (VDict r)
        /\ lookup "ID" r = Some VNone
        /\ lookup "Name" r = Some (VStr "Unnamed Workflow")
        /\ lookup "Active" r = Some (VBool false).
Proof.
  destruct (row_identity_fields [VDict [("nodes", VList [set_node])]] eq_refl)
    as [p [o [a [Hrun Hrows]]]].
  exists p, o, a. split; [exact Hrun |].
  destruct (Hrows 0 [("nodes", VList [set_node])] eq_refl)
    as [r [Hr [_ [Hid [Hname Hactive]]]]].
  exists r. auto.
Defined.

(** A node that is no chat model leaves the collectors as they are. *)
Lemma process_plain_node : forall n acc,
  plain_node n = true -> process_node n acc = Ok acc.
Proof.
  intros n acc H. destruct n as [| | | | | kvs]; try discriminate.
  unfold plain_node in H.
  destruct (lookup "type" kvs) as [[| | | t | |] |] eqn:Ht; try discriminate.
  destruct (lookup "name" kvs) as [[| | | nm | |] |] eqn:Hn; try discriminate.
  apply andb_true_iff in H. destruct H as [Hlm Hcm].
  apply negb_true_iff in Hlm, Hcm.
  unfold process_node. cbn [py_get bind]. rewrite Ht, Hn.
  cbn [eq_str py_in bind]. rewrite Hlm. cbn [bind]. rewrite Hcm. cbn [bind].
  destruct (String.eqb t openrouter_type) eqn:Heq.
  - rewrite preferred_has_marker in Hlm by exact Heq. discriminate.
  - reflexivity.
Qed.

Lemma for_each_plain_nodes : forall ns acc,
  forallb plain_node ns = true -> for_each process_node ns acc = Ok acc.
Proof.
  induction ns as [| n ns IH]; intros acc H; [reflexivity |].
  cbn [forallb] in H. apply andb_true_iff in H. destruct H as [Hn Hns].
  cbn [for_each]. rewrite process_plain_node by exact Hn. cbn [bind].
  apply IH. exact Hns.
Qed.

(** X14.  Of a node that is no chat model the classifier reads the type
    and the name only.  A workflow whose nodes all have a type without
    "lmChat" and a name without "ChatModel" gets its row in the all-list
    alone, with "None", "None" and the empty string, whatever the
    [credentials] and [parameters] of those nodes are. *)
Theorem plain_workflow_is_in_all_list_only : forall kvs ns p o a,
  lookup "nodes" kvs = Some (VList ns) ->
  forallb plain_node ns = true ->
  process_workflow (VDict kvs) (p, o, a)
  = Ok (p, o,
        (a ++ [VDict [("ID", Spec.field (VDict kvs) "id" VNone);
                      ("Name",
                       Spec.field (VDict kvs) "name" (VStr "Unnamed Workflow"));
                      ("Active", Spec.field (VDict kvs) "active" (VBool false));
                      ("Chat Model Used", VStr "None");
                      ("Key", VStr "None");
                      ("Model Used", VStr EmptyString)]])%list).
Proof.
  intros kvs ns p o a Hnodes Hplain.
  unfold process_workflow. cbn [py_get bind]. rewrite Hnodes. cbn [py_iter bind].
  rewrite for_each_plain_nodes by exact Hplain. reflexivity.
Qed.

Lemma plain_workflow_is_in_all_list_only_witness :
  plain_node odd_plain_node = true
  /\ process_workflows
       (classifier_input
          [VDict [("id", VStr "w8"); ("nodes", VList [odd_plain_node])]])
     = Ok ([], [],
           [VDict [("ID", VStr "w8"); ("Name", VStr "Unnamed Workflow");
                   ("Active", VBool false); ("Chat Model Used", VStr "None");
                   ("Key", VStr "None"); ("Model Used", VStr EmptyString)]]).
Proof.
  split; [reflexivity |].
  unfold process_workflows, classifier_input.
  cbn [py_in lookup String.eqb Ascii.eqb Bool.eqb bind py_get py_iter for_each].
  rewrite (plain_workflow_is_in_all_list_only
             [("id", VStr "w8"); ("nodes", VList [odd_plain_node])]
             [odd_plain_node] [] [] [] eq_refl eq_refl).
  reflexivity.
Defined.

(* ================================================================= *)
(** ** The fetch action of the dashboard *)

Lemma rstrip_slash_split : forall s,
  exists k, s = rstrip_slash s ++ slashes k.
Proof.
  induction s as [| c s [k IH]]; [exists 0; reflexivity |].
  cbn [rstrip_slash].
  destruct (Ascii.eqb c "/"%char) eqn:Hc; cbn [andb].
  - apply Ascii.eqb_eq in Hc. subst c.
    destruct (String.eqb (rstrip_slash s) EmptyString) eqn:He.
    + apply String.eqb_eq in He. rewrite He in IH. cbn in IH.
      exists (S k). cbn. rewrite <- IH. reflexivity.
    + exists k. cbn. rewrite <- IH. reflexivity.
  - exists k. cbn. rewrite <- IH. reflexivity.
Qed.

Lemma rstrip_slash_no_trailing_slash : forall s t,
  rstrip_slash s <> t ++ "/".
Proof.
  induction s as [| c s IH]; intros t.
  - cbn. destruct t; discriminate.
  - cbn [rstrip_slash].
    destruct (Ascii.eqb c "/"%char && String.eqb (rstrip_slash s) EmptyString)
      eqn:Hd.
    + destruct t; discriminate.
    + destruct t as [| c' t]; cbn; intros E; injection E as Ec Es.
      * subst c. rewrite Es in Hd. discriminate.
      * exact (IH t Es).
Qed.

(** X15.  The endpoint that the fetch action builds is the base URL of the
    text input without its trailing slashes, followed by
    "/api/v1/workflows"; for a non-empty input it is never missing, so the
    generator cannot answer that the URL was not found.  An empty input
    gives no endpoint. *)
Theorem app_api_url_strips_trailing_slashes : forall base,
  app_api_url EmptyString = VNone
  /\ (base <> EmptyString ->
      exists stem k,
        base = stem ++ slashes k
        /\ (forall t, stem <> t ++ "/")
        /\ app_api_url base = VStr (stem ++ "/api/v1/workflows")
        /\ py_truthy (app_api_url base) = true).
Proof.
  intros base. split; [reflexivity |]. intros Hne.
  destruct (rstrip_slash_split base) as [k Hk].
  exists (rstrip_slash base), k.
  split; [exact Hk |]. split; [apply rstrip_slash_no_trailing_slash |].
  apply String.eqb_neq in Hne. unfold app_api_url. cbn [py_truthy].
  rewrite Hne. cbn [negb]. split; [reflexivity |].
  cbn [py_truthy]. destruct (rstrip_slash base); reflexivity.
Qed.

Lemma app_api_url_strips_trailing_slashes_witness :
  exists stem k,
    "https://n8n.example.com//" = stem ++ slashes k
    /\ (forall t, stem <> t ++ "/")
    /\ app_api_url "https://n8n.example.com//"
       = VStr (stem ++ "/api/v1/workflows")
    /\ py_truthy (app_api_url "https://n8n.example.com//") = true.
Proof.
  apply (app_api_url_strips_trailing_slashes "https://n8n.example.com//").
  discriminate.
Defined.

(* ----------------------------------------------------------------- *)
(** *** The store of workflows by id *)

Lemma key_eqb_sym : forall a b, key_eqb a b = key_eqb b a.
Proof.
  intros [| x | x | s | l | kvs] [| y | y | t | l' | kvs']; cbn;
    try reflexivity.
  - destruct x, y; reflexivity.
  - apply Z.eqb_sym.
  - apply Z.eqb_sym.
  - apply Z.eqb_sym.
  - apply String.eqb_sym.
Qed.

Lemma key_eqb_refl : forall a, hashable a = true -> key_eqb a a = true.
Proof.
  intros [| x | x | s | l | kvs] H; cbn; try discriminate; try reflexivity.
  - destruct x; reflexivity.
  - apply Z.eqb_refl.
  - apply String.eqb_refl.
Qed.

(** Equal keys compare alike with every third key. *)
Lemma key_eqb_trans : forall a b c,
  key_eqb a b = true -> key_eqb a c = key_eqb b c.
Proof.
  intros a b c H.
  destruct a, b; cbn in H; try discriminate; destruct c; cbn;
    try reflexivity;
    repeat match goal with
           | E : Bool.eqb _ _ = true |- _ => apply Bool.eqb_prop in E; subst
           | E : Z.eqb _ _ = true |- _ => apply Z.eqb_eq in E; subst
           | E : String.eqb _ _ = true |- _ => apply String.eqb_eq in E; subst
           end;
    try reflexivity;
    repeat match goal with
           | x : bool |- _ => destruct x
           end;
    reflexivity.
Qed.

Lemma store_get_set_same : forall d k v,
  hashable k = true -> store_get (store_set d k v) k = Some v.
Proof.
  induction d as [| [k' v'] d IH]; intros k v Hk; cbn.
  - rewrite key_eqb_refl by exact Hk. reflexivity.
  - destruct (key_eqb k' k) eqn:E; cbn; rewrite E; [reflexivity |].
    apply IH. exact Hk.
Qed.

Lemma store_get_set_other : forall d k k' v,
  key_eqb k' k = false -> store_get (store_set d k' v) k = store_get d k.
Proof.
  induction d as [| [k0 v0] d IH]; intros k k' v Hk; cbn.
  - rewrite Hk. reflexivity.
  - destruct (key_eqb k0 k') eqn:E; cbn.
    + rewrite (key_eqb_trans k0 k' k E), Hk. reflexivity.
    + destruct (key_eqb k0 k); [reflexivity |]. apply IH. exact Hk.
Qed.

(** The keys of the store after an assignment: those before, and the new
    key when no equal key was there. *)
Lemma store_set_keys : forall d k v,
  map fst (store_set d k v)
  = (map fst d
       ++ match store_get d k with Some _ => [] | None => [k] end)%list.
Proof.
  induction d as [| [k' v'] d IH]; intros k v; cbn; [reflexivity |].
  destruct (key_eqb k' k); cbn.
  - rewrite app_nil_r. reflexivity.
  - rewrite IH. reflexivity.
Qed.

Lemma store_get_none : forall d k,
  store_get d k = None -> Forall (fun k' => key_eqb k' k = false) (map fst d).
Proof.
  induction d as [| [k' v'] d IH]; intros k H; cbn in *; [constructor |].
  destruct (key_eqb k' k) eqn:E; [discriminate |].
  constructor; [exact E | apply IH; exact H].
Qed.

(** The keys of a store are pairwise different, and every workflow is
    filed under a key equal to its own id, which is not a false value. *)
Lemma store_set_distinct : forall d k v,
  ForallOrdPairs (fun a b => key_eqb a b = false) (map fst d) ->
  ForallOrdPairs (fun a b => key_eqb a b = false) (map fst (store_set d k v)).
Proof.
  induction d as [| [k' v'] d IH]; intros k v H; cbn.
  - constructor; constructor.
  - cbn in H. inversion H as [| a l Ha Hl]; subst.
    destruct (key_eqb k' k) eqn:E; cbn; [exact H |].
    constructor; [| apply IH; exact Hl].
    rewrite store_set_keys. apply Forall_app. split; [exact Ha |].
    destruct (store_get d k); constructor; [exact E | constructor].
Qed.

Lemma store_set_forall : forall (P : value * value -> Prop) d k v,
  Forall P d ->
  (forall k', key_eqb k' k = true -> P (k', v)) ->
  P (k, v) ->
  Forall P (store_set d k v).
Proof.
  intros P d k v Hd Hrep Hnew.
  induction d as [| [k' v'] d IH]; cbn.
  - constructor; [exact Hnew | constructor].
  - inversion Hd as [| x l Hx Hl]; subst.
    destruct (key_eqb k' k) eqn:E.
    + constructor; [apply Hrep; exact E | exact Hl].
    + constructor; [exact Hx | apply IH; exact Hl].
Qed.

(** What one iteration of the loop of lines 197 to 200 does when it
    returns. *)
Lemma accumulate_workflow_inv : forall wf d d',
  accumulate_workflow wf d = Ok d' ->
  (py_truthy (id_of wf) = false /\ d' = d)
  \/ (py_truthy (id_of wf) = true /\ hashable (id_of wf) = true
      /\ d' = store_set d (id_of wf) wf).
Proof.
  intros wf d d' H. unfold accumulate_workflow in H.
  destruct wf as [| | | | | kvs]; try discriminate.
  cbn [py_get bind] in H. unfold id_of, Spec.field.
  destruct (py_truthy match lookup "id" kvs with
                      | Some v => v
                      | None => VNone
                      end) eqn:Ht.
  - unfold py_setitem in H.
    destruct (hashable match lookup "id" kvs with
                       | Some v => v
                       | None => VNone
                       end) eqn:Hh; [| discriminate].
    injection H as <-. right. auto.
  - injection H as <-. left. auto.
Qed.

Lemma accumulate_workflow_invariant : forall wf d d',
  accumulate_workflow wf d = Ok d' ->
  store_invariant d -> store_invariant d'.
Proof.
  intros wf d d' H [Hk Hv].
  destruct (accumulate_workflow_inv wf d d' H) as [[_ ->] | [Ht [Hh ->]]];
    [split; assumption |].
  split; [apply store_set_distinct; exact Hk |].
  apply store_set_forall; [exact Hv | |]; cbn [fst snd].
  - intros k' E. auto.
  - split; [apply key_eqb_refl; exact Hh | exact Ht].
Qed.

Lemma for_each_accumulate_workflow_invariant : forall items d d',
  for_each accumulate_workflow items d = Ok d' ->
  store_invariant d -> store_invariant d'.
Proof.
  induction items as [| wf items IH]; intros d d' H Hd; cbn [for_each] in H.
  - injection H as <-. exact Hd.
  - destruct (accumulate_workflow wf d) as [d1 |] eqn:E; cbn [bind] in H;
      [| discriminate].
    apply (IH d1 d' H).
    apply (accumulate_workflow_invariant wf d d1 E Hd).
Qed.

Lemma for_each_accumulate_invariant : forall batches d d',
  for_each accumulate batches d = Ok d' ->
  store_invariant d -> store_invariant d'.
Proof.
  induction batches as [| b batches IH]; intros d d' H Hd; cbn [for_each] in H.
  - injection H as <-. exact Hd.
  - destruct (accumulate b d) as [d1 |] eqn:E; cbn [bind] in H;
      [| discriminate].
    apply (IH d1 d' H). unfold accumulate in E.
    destruct (py_iter b) as [items |]; cbn [bind] in E; [| discriminate].
    apply (for_each_accumulate_workflow_invariant items d d1 E Hd).
Qed.

Lemma store_invariant_distinct_ids : forall d,
  store_invariant d ->
  distinct_ids (store_values d)
  /\ Forall (fun w => py_truthy (id_of w) = true) (store_values d).
Proof.
  induction d as [| [k v] d IH]; intros [Hk Hv]; cbn.
  - split; constructor.
  - cbn in Hk. inversion Hk as [| a l Ha Hl]; subst.
    inversion Hv as [| x l Hx Hd]; subst. cbn [fst snd] in Hx.
    destruct Hx as [Hkv Ht].
    destruct (IH (conj Hl Hd)) as [IHd IHt].
    split; [| constructor; assumption].
    constructor; [| exact IHd].
    unfold store_values. rewrite Forall_map.
    rewrite Forall_map in Ha. rewrite Forall_forall in Ha, Hd.
    apply Forall_forall. intros [k' v'] Hin. cbn [snd].
    specialize (Ha _ Hin). destruct (Hd _ Hin) as [Hkv' _].
    cbn [fst snd] in Ha, Hkv'.
    rewrite <- (key_eqb_trans k (id_of v) (id_of v') Hkv).
    rewrite key_eqb_sym.
    rewrite <- (key_eqb_trans k' (id_of v') k Hkv').
    rewrite key_eqb_sym. exact Ha.
Qed.

(** X16.  Whatever batches the loop has filed without an exception, no two
    of the accumulated workflows have equal ids, and each of them has an
    id that is not a false value: a workflow whose id is missing, null,
    empty or zero is never accumulated. *)
Theorem accumulated_ids_are_distinct : forall batches d,
  for_each accumulate batches [] = Ok d ->
  distinct_ids (store_values d)
  /\ Forall (fun w => py_truthy (id_of w) = true) (store_values d).
Proof.
  intros batches d H. apply store_invariant_distinct_ids.
  apply (for_each_accumulate_invariant batches [] d H).
  split; constructor.
Qed.

Lemma accumulated_ids_are_distinct_witness :
  distinct_ids [workflow_both; workflow_plain_renamed]
  /\ Forall (fun w => py_truthy (id_of w) = true)
            [workflow_both; workflow_plain_renamed].
Proof.
  apply (accumulated_ids_are_distinct
           [VList [workflow_both; workflow_plain; workflow_without_id];
            VList [workflow_plain_renamed]]
           [(VStr "w1", workflow_both); (VStr "w2", workflow_plain_renamed)]).
  reflexivity.
Defined.

Lemma accumulate_workflow_other : forall wf d d' k,
  accumulate_workflow wf d = Ok d' ->
  key_eqb (id_of wf) k = false ->
  store_get d' k = store_get d k.
Proof.
  intros wf d d' k H Hk.
  destruct (accumulate_workflow_inv wf d d' H) as [[_ ->] | [_ [_ ->]]];
    [reflexivity |].
  apply store_get_set_other. exact Hk.
Qed.

Lemma for_each_accumulate_workflow_other : forall items d d' k,
  for_each accumulate_workflow items d = Ok d' ->
  Forall (fun w => key_eqb (id_of w) k = false) items ->
  store_get d' k = store_get d k.
Proof.
  induction items as [| wf items IH]; intros d d' k H Hk; cbn [for_each] in H.
  - injection H as <-. reflexivity.
  - destruct (accumulate_workflow wf d) as [d1 |] eqn:E; cbn [bind] in H;
      [| discriminate].
    inversion Hk as [| x l Hx Hl]; subst.
    rewrite (IH d1 d' k H Hl).
    apply (accumulate_workflow_other wf d d1 k E Hx).
Qed.

(** X17.  The last version wins.  When a batch has been filed, the store
    holds, under the id of a workflow of the batch that has an id, that
    very workflow, provided no later workflow of the batch has an equal
    id; what the store held under that id before, from this batch or from
    an earlier one, is replaced. *)
Theorem last_version_is_kept : forall before wf after d d',
  accumulate (VList (before ++ wf :: after)%list) d = Ok d' ->
  py_truthy (id_of wf) = true ->
  Forall (fun w => key_eqb (id_of w) (id_of wf) = false) after ->
  store_get d' (id_of wf) = Some wf.
Proof.
  intros before wf after d d' H Ht Hafter.
  unfold accumulate in H. cbn [py_iter bind] in H.
  rewrite for_each_app in H.
  destruct (for_each accumulate_workflow before d) as [d1 |]; cbn [bind] in H;
    [| discriminate].
  cbn [for_each] in H.
  destruct (accumulate_workflow wf d1) as [d2 |] eqn:E; cbn [bind] in H;
    [| discriminate].
  rewrite (for_each_accumulate_workflow_other after d2 d' (id_of wf) H Hafter).
  destruct (accumulate_workflow_inv wf d1 d2 E) as [[Hf _] | [_ [Hh ->]]];
    [congruence |].
  apply store_get_set_same. exact Hh.
Qed.

Lemma last_version_is_kept_witness :
  store_get [(VStr "w1", workflow_both); (VStr "w2", workflow_plain_renamed)]
            (id_of workflow_plain_renamed)
  = Some workflow_plain_renamed.
Proof.
  apply (last_version_is_kept [] workflow_plain_renamed [workflow_both]
           [(VStr "w1", workflow_both); (VStr "w2", workflow_plain)]
           [(VStr "w1", workflow_both); (VStr "w2", workflow_plain_renamed)]).
  - reflexivity.
  - reflexivity.
  - repeat constructor.
Defined.

(* ----------------------------------------------------------------- *)
(** *** The loop over the yielded values *)

(** X18.  An error value stops the loop.  When the values before it have
    been handled without an exception, the loop shows the message under
    "error" and halts: what was shown before stays, no completion is
    shown, nothing goes to the session state, and the values after the
    error are not looked at. *)
Theorem error_value_stops_the_loop :
  forall before batch rest msg d assigned log shown ending,
    drive before d assigned log
    = mk_app_run (shown ++ [StatusComplete])%list ending ->
    (ending = AppUnbound \/ exists final, ending = AppDone final) ->
    error_of batch = Some msg ->
    drive (before ++ batch :: rest)%list d assigned log
    = mk_app_run (shown ++ [StatusError msg])%list AppStopped.
Proof.
  induction before as [| b before IH];
    intros batch rest msg d assigned log shown ending Hrun Hend Herr.
  - cbn [app drive]. rewrite Herr. cbn [drive] in Hrun.
    assert (Hlog : log = shown).
    { destruct assigned; injection Hrun as Hev _;
        apply app_inj_tail in Hev; destruct Hev; assumption. }
    rewrite Hlog. reflexivity.
  - cbn [app drive]. cbn [drive] in Hrun.
    destruct (error_of b).
    + injection Hrun as _ <-. destruct Hend as [? | [? ?]]; discriminate.
    + destruct (accumulate b d) as [d1 |].
      * cbv zeta in Hrun |- *.
        destruct (process_workflows (classifier_input (store_values d1)))
          as [l |].
        -- apply (IH batch rest msg d1 (Some l) _ shown ending Hrun Hend Herr).
        -- injection Hrun as _ <-. destruct Hend as [? | [? ?]]; discriminate.
      * injection Hrun as _ <-. destruct Hend as [? | [? ?]]; discriminate.
Qed.

Lemma error_value_stops_the_loop_witness :
  drive [VList [workflow_both; workflow_plain];
         error_value "Request failed: timed out";
         VList [workflow_empty]] [] None []
  = mk_app_run
      [StatusWrite "Fetched 2 workflows...";
       Dashboard (classification [workflow_both; workflow_plain]);
       StatusError (VStr "Request failed: timed out")]
      AppStopped.
Proof.
  apply (error_value_stops_the_loop
           [VList [workflow_both; workflow_plain]]
           (error_value "Request failed: timed out")
           [VList [workflow_empty]]
           (VStr "Request failed: timed out") [] None []
           [StatusWrite "Fetched 2 workflows...";
            Dashboard (classification [workflow_both; workflow_plain])]
           (AppDone (classification [workflow_both; workflow_plain]))).
  - reflexivity.
  - right. eexists. reflexivity.
  - reflexivity.
Defined.

Lemma store_set_values_well_formed : forall d k v,
  forallb well_formed_workflow (store_values d) = true ->
  well_formed_workflow v = true ->
  forallb well_formed_workflow (store_values (store_set d k v)) = true.
Proof.
  induction d as [| [k' v'] d IH]; intros k v Hd Hv; cbn.
  - rewrite Hv. reflexivity.
  - cbn in Hd. apply andb_true_iff in Hd. destruct Hd as [Hv' Hd].
    destruct (key_eqb k' k); cbn.
    + rewrite Hv. exact Hd.
    + rewrite Hv'. apply IH; assumption.
Qed.

(** Workflow records whose ids can be keys are filed without an
    exception, and the store keeps holding workflow records. *)
Lemma accumulate_records : forall ws d,
  forallb (fun w => well_formed_workflow w && hashable (id_of w)) ws = true ->
  forallb well_formed_workflow (store_values d) = true ->
  exists d',
    for_each accumulate_workflow ws d = Ok d'
    /\ forallb well_formed_workflow (store_values d') = true.
Proof.
  induction ws as [| w ws IH]; intros d Hws Hd; cbn [for_each].
  - exists d. auto.
  - cbn [forallb] in Hws. apply andb_true_iff in Hws.
    destruct Hws as [Hw Hws]. apply andb_true_iff in Hw.
    destruct Hw as [Hwf Hh].
    assert (Hstep : exists d1,
               accumulate_workflow w d = Ok d1
               /\ forallb well_formed_workflow (store_values d1) = true).
    { destruct w as [| | | | | kvs]; try discriminate.
      unfold accumulate_workflow. cbn [py_get bind].
      unfold id_of, Spec.field in Hh.
      destruct (py_truthy match lookup "id" kvs with
                          | Some v => v
                          | None => VNone
                          end).
      - unfold py_setitem. rewrite Hh. eexists. split; [reflexivity |].
        apply store_set_values_well_formed; assumption.
      - exists d. auto. }
    destruct Hstep as [d1 [-> Hd1]]. cbn [bind]. apply IH; assumption.
Qed.

Lemma for_each_accumulate_records : forall batches d,
  forallb record_batch batches = true ->
  forallb well_formed_workflow (store_values d) = true ->
  exists d',
    for_each accumulate batches d = Ok d'
    /\ forallb well_formed_workflow (store_values d') = true.
Proof.
  induction batches as [| b batches IH]; intros d Hb Hd; cbn [for_each].
  - exists d. auto.
  - cbn [forallb] in Hb. apply andb_true_iff in Hb. destruct Hb as [Hb Hbs].
    destruct b as [| | | | ws |]; try discriminate. cbn [record_batch] in Hb.
    destruct (accumulate_records ws d Hb Hd) as [d1 [Hacc Hd1]].
    assert (Hacc' : accumulate (VList ws) d = Ok d1) by exact Hacc.
    rewrite Hacc'. cbn [bind]. apply IH; assumption.
Qed.

(** X19.  Batches of workflow records whose ids can be keys are filed
    without an exception, and the classifier accepts the accumulated list:
    called on it as line 208 does, it returns the rows of the
    de-duplicated workflows of all batches. *)
Theorem accumulated_records_are_classified : forall batches,
  forallb record_batch batches = true ->
  exists d,
    for_each accumulate batches [] = Ok d
    /\ process_workflows (classifier_input (store_values d))
       = Ok (classification (store_values d)).
Proof.
  intros batches H.
  destruct (for_each_accumulate_records batches [] H eq_refl) as [d [Hd Hwf]].
  exists d. split; [exact Hd |].
  unfold classification. apply process_workflows_rows. exact Hwf.
Qed.

Lemma accumulated_records_are_classified_witness :
  exists d,
    for_each accumulate
      [VList [workflow_both; workflow_plain; workflow_without_id];
       VList [workflow_plain_renamed]] []
    = Ok d
    /\ process_workflows (classifier_input (store_values d))
       = Ok (classification (store_values d)).
Proof.
  apply (accumulated_records_are_classified
           [VList [workflow_both; workflow_plain; workflow_without_id];
            VList [workflow_plain_renamed]]).
  reflexivity.
Defined.

(** X20.  The height of a table is 150 for up to three rows and grows by
    35 for every row from the fourth on; it is never below 150 and never
    shrinks when rows are added. *)
Theorem table_height_bounds : forall rows more,
  get_table_height rows
  = (if Nat.leb rows 3 then 150 else 35 * rows + 38)
  /\ 150 <= get_table_height rows
  /\ get_table_height rows <= get_table_height (rows + more).
Proof.
  intros rows more. unfold get_table_height.
  destruct (Nat.leb rows 3) eqn:H.
  - apply Nat.leb_le in H. repeat split; lia.
  - apply Nat.leb_gt in H. repeat split; lia.
Qed.
